(** * wsgi.py: a Flask front-end that turns HTML into PDF

    A shallow embedding of [wsgi.py].  The views of the application are
    written in a small monad that records the calls to the outside world
    (logging, JSON, WeasyPrint, zipfile, glob) and that stops at the first
    [abort] or uncaught Python exception.  The libraries themselves are an
    interface ([Lib]): the views are verified for every implementation of
    it. *)

From Stdlib Require Import Ascii String.
From stdpp Require Import base option strings list gmap pretty.

Local Open Scope string_scope.
Set Warnings "-register-all".

(** ** Python values *)

(** [bytes] and [str] are both sequences of octets here; a [str] is held
    in its UTF-8 encoding. *)
Abbreviation bytes := string (only parsing).
Abbreviation str := string (only parsing).

(** What [json.loads] returns.  An object keeps its members in order; the
    parser hands out each key once. *)
Inductive json :=
  | JNull
  | JBool (b : bool)
  | JNum (literal : str)
  | JStr (s : str)
  | JArr (items : list json)
  | JObj (members : list (str * json)).

(** The exceptions that the views can meet. *)
Inductive exn :=
  | KeyError (key : str)
  | IndexError
  | TypeError
  | ValueError
  | LibraryError (name : str).

(** [werkzeug.exceptions.HTTPException] raised by [abort], against any other
    exception, which Flask turns into a 500. *)
Inductive failure :=
  | HTTPException (code : nat)
  | Uncaught (e : exn).

Definition result (A : Type) : Type := exn + A.

(** A continuation octet of UTF-8 is [10xxxxxx]. *)
Definition is_continuation (a : ascii) : bool :=
  match a with
  | Ascii _ _ _ _ _ _ b6 b7 => b7 && negb b6
  end.

(** Splits a [str] into its characters, from the right: the first component
    holds the continuation octets met so far. *)
Fixpoint utf8_split (s : str) : str * list str :=
  match s with
  | EmptyString => (EmptyString, [])
  | String a rest =>
      let '(tail, chars) := utf8_split rest in
      if is_continuation a then (String a tail, chars)
      else (EmptyString, String a tail :: chars)
  end.

Definition utf8_chars (s : str) : list str := (utf8_split s).2.

(** [iter(v)]: the elements a [for] loop or a comprehension goes through. *)
Definition py_iter (v : json) : result (list json) :=
  match v with
  | JArr items => inr items
  | JObj members => inr (JStr <$> members.*1)
  | JStr s => inr (JStr <$> utf8_chars s)
  | JNull | JBool _ | JNum _ => inl TypeError
  end.

Fixpoint assoc (k : str) (members : list (str * json)) : option json :=
  match members with
  | [] => None
  | (k', v) :: rest => if decide (k' = k) then Some v else assoc k rest
  end.

(** [v[k]] for a string key [k]. *)
Definition py_getitem (v : json) (k : str) : result json :=
  match v with
  | JObj members =>
      match assoc k members with
      | Some x => inr x
      | None => inl (KeyError k)
      end
  | _ => inl TypeError
  end.

(** [l[0]] on a Python list. *)
Definition py_index0 {A} (l : list A) : result A :=
  match l with
  | [] => inl IndexError
  | x :: _ => inr x
  end.

(** [os.path.join(a, b)] of [posixpath]. *)
Definition ends_with_slash (a : str) : bool :=
  match last (list_ascii_of_string a) with
  | Some c => bool_decide (c = "/"%char)
  | None => false
  end.

Definition path_join (a b : str) : str :=
  if String.prefix "/" b then b
  else if bool_decide (a = "") || ends_with_slash a then a +:+ b
  else a +:+ "/" +:+ b.

(** ** Requests and responses *)

(** [flask.request]: [args] is the query string and [headers] the header
    fields, each under the name that the views look it up by (Werkzeug
    compares header names without regard to case). *)

Record request := Request {
  method : str;
  path : str;
  args : gmap string string;
  headers : gmap string string;
  data : bytes;
}.

Record response := Response {
  status : nat;
  resp_headers : gmap string string;
  body : bytes;
}.

(** [make_response(rv)] for a [str] or [bytes] return value. *)
Definition make_response (rv : bytes) : response :=
  {| status := 200;
     resp_headers := {[ "Content-Type" := "text/html; charset=utf-8" ]};
     body := rv |}.

(** Whether a [str] holds a line feed or a carriage return. *)
Fixpoint has_newline (v : str) : bool :=
  match v with
  | EmptyString => false
  | String c rest =>
      bool_decide (c = ascii_of_nat 10) || bool_decide (c = ascii_of_nat 13)
      || has_newline rest
  end.

(** [response.headers[k] = v]: Werkzeug refuses, with [ValueError], a value
    that holds a line feed or a carriage return. *)
Definition set_header (k v : str) (r : response) : result response :=
  if has_newline v then inl ValueError
  else inr {| status := status r;
              resp_headers := <[ k := v ]> (resp_headers r);
              body := body r |}.

(** ** The effects of a view *)

Inductive level := DEBUG | INFO | WARNING | ERROR.

Inductive libop :=
  | OpDecode | OpJsonLoads | OpHTML | OpCSS | OpRender | OpWritePdf
  | OpZipFile | OpExtractAll | OpGlob.

Inductive event :=
  | EvLog (lvl : level) (msg : str)
  | EvCall (op : libop).

#[global] Instance level_eq_dec : EqDecision level.
Proof. solve_decision. Defined.
#[global] Instance libop_eq_dec : EqDecision libop.
Proof. solve_decision. Defined.
#[global] Instance event_eq_dec : EqDecision event.
Proof. solve_decision. Defined.

(** A computation gives the events it went through and either its value or
    the failure that ended it. *)
Definition M (A : Type) : Type := list event * (failure + A).

#[global] Instance M_ret : MRet M := λ A a, ([], inr a).

#[global] Instance M_bind : MBind M := λ A B f m,
  match m.2 with
  | inl e => (m.1, inl e)
  | inr a => ((m.1 ++ (f a).1)%list, (f a).2)
  end.

Definition trace {A} (m : M A) : list event := m.1.
Definition outcome {A} (m : M A) : failure + A := m.2.

(** [abort(code)] *)
Definition abort {A} (code : nat) : M A := ([], inl (HTTPException code)).

(** [app.logger.<lvl>(msg)] *)
Definition log (lvl : level) (msg : str) : M unit := ([EvLog lvl msg], inr ()).

(** A call into a library: an exception it raises is not caught. *)
Definition call {A} (op : libop) (r : result A) : M A :=
  ([EvCall op], match r with inl e => inl (Uncaught e) | inr a => inr a end).

(** A Python operation of the view itself. *)
Definition py {A} (r : result A) : M A :=
  ([], match r with inl e => inl (Uncaught e) | inr a => inr a end).

(** Every [abort] that can end [m] carries a code in [P]. *)
Definition aborts_within {A} (P : nat → Prop) (m : M A) : Prop :=
  ∀ code, outcome m = inl (HTTPException code) → P code.

(** [m] cannot end in an [abort]. *)
Definition no_abort {A} (m : M A) : Prop := aborts_within (λ _, False) m.

(** The status the client sees. *)
Definition final_status (o : failure + response) : nat :=
  match o with
  | inr r => status r
  | inl (HTTPException code) => code
  | inl (Uncaught _) => 500
  end.

(** ** The libraries *)

Class LibTypes := {
  html : Type;
  css : Type;
  page : Type;
  metadata : Type;
  zipfile : Type;
  filesystem : Type;
}.

(** [weasyprint.Document]: [copy(pages)] keeps everything but the pages. *)
Record Document {T : LibTypes} := {
  pages : list page;
  doc_metadata : metadata;
}.

Definition copy {T : LibTypes} (d : Document) (ps : list page) : Document :=
  {| pages := ps; doc_metadata := doc_metadata d |}.

Class Lib {T : LibTypes} := {
  (** [b.decode('utf-8')] *)
  utf8_decode : bytes → result str;
  (** [json.loads(s)] *)
  json_loads : str → result json;
  (** [HTML(string=v)], [HTML(filename=p)] *)
  HTML_string : json → result html;
  HTML_filename : filesystem → str → result html;
  (** [CSS(string=v)], [CSS(filename=p)] *)
  CSS_string : json → result css;
  CSS_filename : filesystem → str → result css;
  (** [html.render(stylesheets)], no stylesheet being [[]] *)
  render : html → list css → result Document;
  (** [document.write_pdf()] *)
  doc_write_pdf : Document → result bytes;
  (** [TemporaryDirectory(prefix=p).name] *)
  mkdtemp : str → str;
  (** [zipfile.ZipFile(BytesIO(b), mode='r')] *)
  ZipFile : bytes → result zipfile;
  (** [z.extractall(dir)]: the files there afterwards *)
  extractall : zipfile → str → result filesystem;
  (** [glob.glob(pattern, recursive=True)] *)
  glob : filesystem → str → list str;
}.

(** ** The application *)

Section Views.
Context {T : LibTypes} {L : Lib}.

(** [os.environ] *)
Variable environ : gmap string string.

(** [request.headers[k]]: a header that is not there is a [KeyError]. *)
Definition header_getitem (req : request) (k : str) : M str :=
  py (match headers req !! k with
      | Some v => inr v
      | None => inl (KeyError k)
      end).

(** [k in request.headers] *)
Definition header_contains (req : request) (k : str) : bool :=
  bool_decide (is_Some (headers req !! k)).

(** [os.environ.get(k) == v]: [None] equals no string. *)
Definition environ_get_eq (k v : str) : bool :=
  bool_decide (environ !! k = Some v).

(** [authenticate(f)] returns [checkauth]; [or] evaluates its second
    operand only when the first is false. *)
Definition checkauth (f : request → M response) (req : request) : M response :=
  if negb (header_contains req "X_API_KEY") then f req
  else
    v ← header_getitem req "X_API_KEY";
    if environ_get_eq "X_API_KEY" v then f req else abort 401.

Definition authenticate (f : request → M response) : request → M response :=
  checkauth f.

(** [request.args.get('filename', 'unnamed.pdf')] *)
Definition filename (req : request) : str :=
  default "unnamed.pdf" (args req !! "filename").

(** The three lines that every PDF view ends with before its last log:
    the response is made, then its two headers are set, and the second
    assignment raises when the file name holds a line break. *)
Definition pdf_response (name : str) (pdf : bytes) : result response :=
  match set_header "Content-Type" "application/pdf" (make_response pdf) with
  | inl e => inl e
  | inr response =>
      set_header "Content-Disposition" ("inline;filename=" +:+ name) response
  end.

(** The response that these lines make of a PDF, when they make one. *)
Definition pdf_answer (name : str) (pdf : bytes) : response :=
  {| status := 200;
     resp_headers :=
       <[ "Content-Disposition" := "inline;filename=" +:+ name ]>
         (<[ "Content-Type" := "application/pdf" ]>
            {[ "Content-Type" := "text/html; charset=utf-8" ]});
     body := pdf |}.

(** [html.write_pdf(stylesheets=css)] is
    [html.render(css).write_pdf()] in WeasyPrint. *)
Definition HTML_write_pdf (h : html) (sheets : list css) : M bytes :=
  d ← call OpRender (render h sheets);
  call OpWritePdf (doc_write_pdf d).

(** [documents[0].copy([page for doc in documents for page in doc.pages]).write_pdf()] *)
Definition merge_documents (documents : list Document) : M bytes :=
  d0 ← py (py_index0 documents);
  call OpWritePdf (doc_write_pdf (copy d0 (documents ≫= pages))).

(** [@app.route('/health')] *)
Definition index (req : request) : M response :=
  mret (make_response "ok").

Definition dq : str := String (ascii_of_nat 34) EmptyString.

Definition home_page : str :=
  "
            <h1>PDF Generator</h1>
            <p>The following endpoints are available:</p>
            <ul>
                <li>POST to <code>/pdf?filename=myfile.pdf</code>. The body should
                    contain html or a JSON list of html strings and css strings: { "
  +:+ dq +:+ "html" +:+ dq +:+ ": html, " +:+ dq +:+ "css" +:+ dq +:+ ": [css-file-objects] }</li>
                <li>POST to <code>/multiple?filename=myfile.pdf</code>. The body
                    should contain a JSON list of html strings. They will each
                    be rendered and combined into a single pdf</li>
                <li>POST to <code>/zip2pdf?filename=myfile.pdf</code>. The body
                    should contain a .zip file with at least one html file. Can
                    be used for image heavy pages.</li>
            </ul>
        ".

(** [@app.route('/')] *)
Definition home (req : request) : M response :=
  mret (make_response home_page).

(** [@app.route('/pdf', methods=['POST'])] *)
Definition generate (req : request) : M response :=
  let name := filename req in
  log INFO ("POST  /pdf?filename=" +:+ name);;
  ctype ← header_getitem req "Content-Type";
  pdf ← (if bool_decide (ctype = "application/json") then
           s ← call OpDecode (utf8_decode (data req));
           data' ← call OpJsonLoads (json_loads s);
           src ← py (py_getitem data' "html");
           html' ← call OpHTML (HTML_string src);
           listed ← py (py_getitem data' "css");
           sheets ← py (py_iter listed);
           css' ← mapM (λ sheet, call OpCSS (CSS_string sheet)) sheets;
           HTML_write_pdf html' css'
         else
           s ← call OpDecode (utf8_decode (data req));
           html' ← call OpHTML (HTML_string (JStr s));
           HTML_write_pdf html' []);
  response ← py (pdf_response name pdf);
  log INFO (" ==> POST  /pdf?filename=" +:+ name +:+ "  ok");;
  mret response.

(** [@app.route('/multiple', methods=['POST'])] *)
Definition multiple (req : request) : M response :=
  let name := filename req in
  log INFO ("POST  /multiple?filename=" +:+ name);;
  s ← call OpDecode (utf8_decode (data req));
  htmls ← call OpJsonLoads (json_loads s);
  items ← py (py_iter htmls);
  documents ← mapM (λ item, h ← call OpHTML (HTML_string item);
                            call OpRender (render h [])) items;
  pdf ← merge_documents documents;
  response ← py (pdf_response name pdf);
  log INFO (" ==> POST  /multiple?filename=" +:+ name +:+ "  ok");;
  mret response.

(** [@app.route('/zip2pdf', methods=['POST'])] *)
Definition zip2pdf (req : request) : M response :=
  let name := filename req in
  log INFO ("POST  /zip2pdf?filename=" +:+ name);;
  let temp_dir := mkdtemp "weasyprint-" in
  myzip ← call OpZipFile (ZipFile (data req));
  fs ← call OpExtractAll (extractall myzip temp_dir);
  htmls ← call OpGlob (inr (glob fs (path_join temp_dir "**/*.html")));
  csss ← call OpGlob (inr (glob fs (path_join temp_dir "**/*.css")));
  pdf ← (if bool_decide (length htmls = 0) then
           log WARNING "Zip archive contain no html files.";;
           abort 400
         else if bool_decide (length htmls = 1) then
           h0 ← py (py_index0 htmls);
           html' ← call OpHTML (HTML_filename fs h0);
           css' ← mapM (λ sheet, call OpCSS (CSS_filename fs sheet)) csss;
           HTML_write_pdf html' css'
         else
           documents ← mapM (λ file, h ← call OpHTML (HTML_filename fs file);
                                     call OpRender (render h [])) htmls;
           merge_documents documents);
  response ← py (pdf_response name pdf);
  log INFO (" ==> POST  /zip2pdf?filename=" +:+ name +:+ "  ok");;
  mret response.

(** The URL map built by the [@app.route] decorators. *)
Inductive endpoint := Index | Home | Generate | Multiple | Zip2pdf.

Definition url_map : list (str * list str * endpoint) :=
  [ ("/health", ["GET"], Index);
    ("/", ["GET"], Home);
    ("/pdf", ["POST"], Generate);
    ("/multiple", ["POST"], Multiple);
    ("/zip2pdf", ["POST"], Zip2pdf) ].

(** The view function registered for each endpoint, decorators applied. *)
Definition view (ep : endpoint) : request → M response :=
  match ep with
  | Index => index
  | Home => home
  | Generate => authenticate generate
  | Multiple => authenticate multiple
  | Zip2pdf => authenticate zip2pdf
  end.

(** The rule that the path and the method of a request select, the methods
    being those written in the decorators; [None] leaves the request to the
    framework (404, 405, and the HEAD and OPTIONS that it adds to a rule). *)
Definition match_request (req : request) : option endpoint :=
  found ← list_find (λ rule, rule.1.1 = path req ∧ method req ∈ rule.1.2) url_map;
  Some found.2.2.

Definition wsgi_app (req : request) : option (M response) :=
  ep ← match_request req; Some (view ep req).

(** [item] alone makes the document [d]: it is parsed, then rendered with
    no stylesheet. *)
Definition rendered {X} (parse : X → result html) (item : X) (d : Document) : Prop :=
  ∃ h, parse item = inr h ∧ render h [] = inr d.

(** The files that the two [glob] calls of [zip2pdf] find. *)
Definition html_files (fs : filesystem) : list str :=
  glob fs (path_join (mkdtemp "weasyprint-") "**/*.html").
Definition css_files (fs : filesystem) : list str :=
  glob fs (path_join (mkdtemp "weasyprint-") "**/*.css").

End Views.

(** The requests that [checkauth] is described to accept: the header is
    absent, or it carries the value of the environment variable. *)
Definition authorized (environ : gmap string string) (req : request) : Prop :=
  headers req !! "X_API_KEY" = None ∨
  ∃ v, headers req !! "X_API_KEY" = Some v ∧ environ !! "X_API_KEY" = Some v.

#[global] Instance authorized_dec environ req : Decision (authorized environ req).
Proof.
  unfold authorized. destruct (headers req !! "X_API_KEY") as [v|].
  - destruct (decide (environ !! "X_API_KEY" = Some v)) as [He|Hne].
    + left. right. by exists v.
    + right. intros [Hk|(v' & [= <-] & He)]; done.
  - left. by left.
Defined.

(** ** A test double of the libraries

    Small stand-ins on which the views run on concrete requests: a page
    per document, an archive given as the list of its files, a JSON reader
    that knows three bodies. *)

Module Double.

#[local] Instance types : LibTypes :=
  {| html := str; css := str; page := str; metadata := unit;
     zipfile := list (str * str); filesystem := list (str * str) |}.

Definition ends_with (e s : str) : bool :=
  String.prefix (String.rev e) (String.rev s).

Definition empty_array : str := "[]".
Definition two_pages : str :=
  "[" +:+ dq +:+ "<p>a</p>" +:+ dq +:+ "," +:+ dq +:+ "<p>b</p>" +:+ dq +:+ "]".
Definition styled : str :=
  "{" +:+ dq +:+ "html" +:+ dq +:+ ":" +:+ dq +:+ "<p>a</p>" +:+ dq +:+ ","
  +:+ dq +:+ "css" +:+ dq +:+ ":[" +:+ dq +:+ "p{}" +:+ dq +:+ "]}".

Definition loads (s : str) : result json :=
  if decide (s = empty_array) then inr (JArr [])
  else if decide (s = two_pages) then inr (JArr [JStr "<p>a</p>"; JStr "<p>b</p>"])
  else if decide (s = styled) then
    inr (JObj [("html", JStr "<p>a</p>"); ("css", JArr [JStr "p{}"])])
  else inl (LibraryError "JSONDecodeError").

Definition of_string (v : json) : result str :=
  match v with
  | JStr s => inr s
  | _ => inl TypeError
  end.

Definition read (fs : list (str * str)) (p : str) : result str :=
  match list_find (λ f, f.1 = p) fs with
  | Some found => inr found.2.2
  | None => inl (LibraryError "FileNotFoundError")
  end.

Definition archive (b : bytes) : result (list (str * str)) :=
  if decide (b = "PK:empty") then inr []
  else if decide (b = "PK:one") then
    inr [("index.html", "<p>a</p>"); ("style.css", "p{}")]
  else if decide (b = "PK:two") then
    inr [("a.html", "<p>a</p>"); ("b.html", "<p>b</p>"); ("style.css", "p{}")]
  else inl (LibraryError "BadZipFile").

Definition typeset (h : str) (sheets : list str) : result Document :=
  inr {| pages := [h +:+ String.concat "" sheets]; doc_metadata := () |}.

#[local] Instance lib : Lib :=
  {| utf8_decode b := inr b;
     json_loads := loads;
     HTML_string := of_string;
     HTML_filename := read;
     CSS_string := of_string;
     CSS_filename := read;
     render := typeset;
     doc_write_pdf d := inr ("%PDF" +:+ String.concat "|" (pages d));
     mkdtemp prefix := "/tmp/" +:+ prefix +:+ "0";
     ZipFile := archive;
     extractall z dir := inr ((λ f, (path_join dir f.1, f.2)) <$> z);
     glob fs pattern :=
       filter (λ p, ends_with (if ends_with ".html" pattern then ".html" else ".css") p)
              (fs.*1) |}.

Definition environ : gmap string string := {[ "X_API_KEY" := "s3cret" ]}.

Definition post (target : str) (hs : list (str * str)) (b : bytes) : request :=
  {| method := "POST"; path := target; args := ∅;
     headers := list_to_map hs; data := b |}.

End Double.

(** ** Two requests that the application can receive *)

(** A POST of a page to /pdf by a client that sends no [X_API_KEY]. *)
Definition keyless_request (b : bytes) : request :=
  {| method := "POST"; path := "/pdf"; args := ∅;
     headers := {[ "Content-Type" := "text/html" ]}; data := b |}.

(** A POST of a page to /pdf by a client that sends no [Content-Type]. *)
Definition untyped_request (b : bytes) : request :=
  {| method := "POST"; path := "/pdf"; args := ∅; headers := ∅; data := b |}.

(** ** The rest of the module *)

(** Every event of [m] is in [P]. *)
Definition emits_only {A} (P : event → Prop) (m : M A) : Prop :=
  Forall P (trace m).

(** The three views that answer with a PDF, the path each is routed under
    and the two lines each logs. *)
Definition pdf_endpoint (ep : endpoint) : Prop :=
  ep = Generate ∨ ep = Multiple ∨ ep = Zip2pdf.

Definition endpoint_path (ep : endpoint) : str :=
  match ep with
  | Index => "/health"
  | Home => "/"
  | Generate => "/pdf"
  | Multiple => "/multiple"
  | Zip2pdf => "/zip2pdf"
  end.

Definition start_line (ep : endpoint) (req : request) : event :=
  EvLog INFO ("POST  " +:+ endpoint_path ep +:+ "?filename=" +:+ filename req).

Definition ok_line (ep : endpoint) (req : request) : event :=
  EvLog INFO (" ==> POST  " +:+ endpoint_path ep +:+ "?filename=" +:+ filename req
              +:+ "  ok").

(** The event [ev] is in the trace of [m] exactly when [m] returns. *)
Definition marks_success {A} (ev : event) (m : M A) : Prop :=
  ev ∈ trace m ↔ ∃ a, outcome m = inr a.

(** [auth()], which no view calls.  [app.config.from_envvar(name)] loads the
    file that the environment variable names: it returns a [bool] or
    raises. *)
Section Auth.
Variable from_envvar : str → result bool.

(** [b == v] for a [bool] and a [str]: Python finds them different. *)
Definition bool_eq_str (b : bool) (v : str) : bool := false.

Definition auth (req : request) : M bool :=
  loaded ← py (from_envvar "X_API_KEY");
  v ← header_getitem req "X_API_KEY";
  if bool_eq_str loaded v then mret true else abort 401.

End Auth.

(** [setup_logging()], run before the first request ([handlers.clear()]
    is the empty list that [addHandler] then extends), on the state of the [logging] module that it
    touches: the two tables of level names, and the handlers and the level
    of [app.logger]. *)
Record handler := Handler {
  formatter : option str;
}.

Record logging := Logging {
  levelToName : gmap nat str;
  nameToLevel : gmap str nat;
  logger_handlers : list handler;
  logger_level : nat;
}.

#[global] Instance handler_eq_dec : EqDecision handler.
Proof. solve_decision. Defined.

(** [logging.DEBUG] and the like *)
Definition levelno (l : level) : nat :=
  match l with
  | DEBUG => 10
  | INFO => 20
  | WARNING => 30
  | ERROR => 40
  end.

(** [logging.getLevelName(n)] for a number [n]; the table of names has
    strings for keys, so that the second lookup of the library finds
    nothing. *)
Definition getLevelName (st : logging) (n : nat) : str :=
  default ("Level " +:+ pretty n) (levelToName st !! n).

(** [logging.addLevelName(n, name)] *)
Definition addLevelName (n : nat) (name : str) (st : logging) : logging :=
  {| levelToName := <[ n := name ]> (levelToName st);
     nameToLevel := <[ name := n ]> (nameToLevel st);
     logger_handlers := logger_handlers st;
     logger_level := logger_level st |}.

(** [logger.addHandler(h)] *)
Definition addHandler (h : handler) (hs : list handler) : list handler :=
  if decide (h ∈ hs) then hs else (hs ++ [h])%list.

(** [logging.StreamHandler()] and [h.setFormatter(logging.Formatter(fmt))] *)
Definition StreamHandler : handler := {| formatter := None |}.

Definition setFormatter (fmt : str) (h : handler) : handler :=
  {| formatter := Some fmt |}.

(** The octet 033. *)
Definition esc : str := String (ascii_of_nat 27) EmptyString.

Definition log_format : str :=
  "%(asctime)s %(levelname)s: %(message)s [in %(pathname)s:%(lineno)d]".

Definition setup_logging (st : logging) : logging :=
  let st := addLevelName (levelno DEBUG)
              (esc +:+ "[1;36m" +:+ getLevelName st (levelno DEBUG) +:+ esc +:+ "[1;0m") st in
  let st := addLevelName (levelno INFO)
              (esc +:+ "[1;32m" +:+ getLevelName st (levelno INFO) +:+ esc +:+ "[1;0m") st in
  let st := addLevelName (levelno WARNING)
              (esc +:+ "[1;33m" +:+ getLevelName st (levelno WARNING) +:+ esc +:+ "[1;0m") st in
  let st := addLevelName (levelno ERROR)
              (esc +:+ "[1;31m" +:+ getLevelName st (levelno ERROR) +:+ esc +:+ "[1;0m") st in
  let handler := StreamHandler in
  let handler := setFormatter log_format handler in
  let handlers := [] in
  let handlers := addHandler handler handlers in
  {| levelToName := levelToName st;
     nameToLevel := nameToLevel st;
     logger_handlers := handlers;
     logger_level := levelno DEBUG |}.

(** The colour that [setup_logging] gives to a level. *)
Definition colour (l : level) : str :=
  match l with
  | DEBUG => "36"
  | INFO => "32"
  | WARNING => "33"
  | ERROR => "31"
  end.

(** ** More bodies for the test double

    The libraries of [Double], with a JSON reader that also knows a
    number, [null], an array with a number in it and an object without
    [css]. *)

Module Probe.

Definition number : str := "7".
Definition null : str := "null".
Definition mixed : str :=
  "[" +:+ dq +:+ "<p>a</p>" +:+ dq +:+ ",7," +:+ dq +:+ "<p>b</p>" +:+ dq +:+ "]".
Definition no_css : str :=
  "{" +:+ dq +:+ "html" +:+ dq +:+ ":" +:+ dq +:+ "<p>a</p>" +:+ dq +:+ "}".

Definition loads (s : str) : result json :=
  if decide (s = number) then inr (JNum "7")
  else if decide (s = null) then inr JNull
  else if decide (s = mixed) then
    inr (JArr [JStr "<p>a</p>"; JNum "7"; JStr "<p>b</p>"])
  else if decide (s = no_css) then inr (JObj [("html", JStr "<p>a</p>")])
  else Double.loads s.

#[local] Instance lib : @Lib Double.types :=
  {| utf8_decode := @utf8_decode _ Double.lib;
     json_loads := loads;
     HTML_string := @HTML_string _ Double.lib;
     HTML_filename := @HTML_filename _ Double.lib;
     CSS_string := @CSS_string _ Double.lib;
     CSS_filename := @CSS_filename _ Double.lib;
     render := @render _ Double.lib;
     doc_write_pdf := @doc_write_pdf _ Double.lib;
     mkdtemp := @mkdtemp _ Double.lib;
     ZipFile := @ZipFile _ Double.lib;
     extractall := @extractall _ Double.lib;
     glob := @glob _ Double.lib |}.

End Probe.

(** ** Reasoning about computations *)

Section Monad.
Context {A B : Type}.

Lemma outcome_bind (m : M A) (f : A → M B) :
  outcome (m ≫= f) =
  match outcome m with inl e => inl e | inr a => outcome (f a) end.
Proof. unfold outcome, mbind, M_bind. by destruct m as [t [e|a]]. Qed.

Lemma trace_bind (m : M A) (f : A → M B) :
  trace (m ≫= f) =
  match outcome m with inl _ => trace m | inr a => (trace m ++ trace (f a))%list end.
Proof. unfold trace, outcome, mbind, M_bind. by destruct m as [t [e|a]]. Qed.

End Monad.

Lemma py_ok_bind {A B} (a : A) (f : A → M B) : py (inr a) ≫= f = f a.
Proof. unfold py, mbind, M_bind; simpl. by destruct (f a). Qed.

Lemma outcome_call {A} op (r : result A) :
  outcome (call op r) = match r with inl e => inl (Uncaught e) | inr a => inr a end.
Proof. done. Qed.

Lemma outcome_py {A} (r : result A) :
  outcome (py r) = match r with inl e => inl (Uncaught e) | inr a => inr a end.
Proof. done. Qed.

(** ** The authentication decorator *)

Section Authentication.
Variable environ : gmap string string.
Variable f : request → M response.

Lemma checkauth_absent req :
  headers req !! "X_API_KEY" = None → checkauth environ f req = f req.
Proof.
  intros Hk. unfold checkauth, header_contains.
  rewrite Hk. by rewrite bool_decide_eq_false_2 by (by intros [? ?]).
Qed.

Lemma checkauth_present req v :
  headers req !! "X_API_KEY" = Some v →
  checkauth environ f req =
  if bool_decide (environ !! "X_API_KEY" = Some v) then f req else abort 401.
Proof.
  intros Hk. unfold checkauth, header_contains, header_getitem, environ_get_eq.
  rewrite Hk. rewrite bool_decide_eq_true_2 by eauto.
  cbn [negb]. by rewrite py_ok_bind.
Qed.

Lemma checkauth_authorized req :
  authorized environ req → checkauth environ f req = f req.
Proof.
  intros [Hk | (v & Hk & He)].
  - by apply checkauth_absent.
  - rewrite (checkauth_present _ _ Hk). by rewrite bool_decide_eq_true_2.
Qed.

Lemma checkauth_unauthorized req :
  ¬ authorized environ req → checkauth environ f req = abort 401.
Proof.
  intros Hn. destruct (headers req !! "X_API_KEY") as [v|] eqn:Hk.
  - rewrite (checkauth_present _ _ Hk). rewrite bool_decide_eq_false_2; [done|].
    intros He. apply Hn. right. eauto.
  - exfalso. apply Hn. by left.
Qed.

(** C2: [checkauth] lets a request through exactly when the [X_API_KEY]
    header is absent or carries the value of the [X_API_KEY] environment
    variable; every other request is aborted with 401, the view not run. *)
Theorem checkauth_spec req :
  (authorized environ req → checkauth environ f req = f req) ∧
  (¬ authorized environ req → checkauth environ f req = abort 401).
Proof. split; [apply checkauth_authorized | apply checkauth_unauthorized]. Qed.

(** C9: with the environment variable unset, a request that carries the
    header, whatever its value, is aborted with 401, and a request without
    the header goes on to the view. *)
Theorem checkauth_unset_secret req :
  environ !! "X_API_KEY" = None →
  (∀ v, headers req !! "X_API_KEY" = Some v →
        checkauth environ f req = abort 401 ∧
        final_status (outcome (checkauth environ f req)) = 401) ∧
  (headers req !! "X_API_KEY" = None → checkauth environ f req = f req).
Proof.
  intros He. split.
  - intros v Hk. rewrite (checkauth_present _ _ Hk), He.
    by rewrite bool_decide_eq_false_2.
  - apply checkauth_absent.
Qed.

End Authentication.

(** ** Which failures a computation can end in *)

Create HintDb aborts.

Lemma aborts_within_ret {A} P (a : A) : aborts_within P (mret a).
Proof. intros code Hc. discriminate. Qed.

Lemma aborts_within_log P lvl msg : aborts_within P (log lvl msg).
Proof. intros code Hc. discriminate. Qed.

Lemma aborts_within_call {A} P op (r : result A) : aborts_within P (call op r).
Proof. intros code. rewrite outcome_call. by destruct r. Qed.

Lemma aborts_within_py {A} P (r : result A) : aborts_within P (py r).
Proof. intros code. rewrite outcome_py. by destruct r. Qed.

Lemma aborts_within_abort {A} (P : nat → Prop) code :
  P code → aborts_within P (@abort A code).
Proof. intros HP code' Hc. by injection Hc as <-. Qed.

Lemma aborts_within_bind {A B} P (m : M A) (f : A → M B) :
  aborts_within P m → (∀ a, aborts_within P (f a)) → aborts_within P (m ≫= f).
Proof.
  intros Hm Hf code. rewrite outcome_bind.
  destruct (outcome m) as [e|a] eqn:Hom.
  - intros [= ->]. by apply Hm.
  - apply Hf.
Qed.

Lemma aborts_within_if {A} P (c : bool) (m1 m2 : M A) :
  aborts_within P m1 → aborts_within P m2 → aborts_within P (if c then m1 else m2).
Proof. by destruct c. Qed.

Lemma aborts_within_mapM {A B} P (f : A → M B) (l : list A) :
  (∀ a, aborts_within P (f a)) → aborts_within P (mapM f l).
Proof.
  intros Hf. induction l as [|x l IH].
  - apply aborts_within_ret.
  - apply aborts_within_bind; [apply Hf|]. intros y.
    apply aborts_within_bind; [apply IH|]. intros k. apply aborts_within_ret.
Qed.

#[local] Hint Resolve aborts_within_ret aborts_within_log aborts_within_call
  aborts_within_py aborts_within_abort aborts_within_bind aborts_within_if
  aborts_within_mapM : aborts.

(** A comprehension whose every element succeeds gives the list of the
    results, in order. *)
Lemma outcome_mapM_ok {A B} (f : A → M B) (l : list A) (bs : list B) :
  Forall2 (λ a b, outcome (f a) = inr b) l bs → outcome (mapM f l) = inr bs.
Proof.
  induction 1 as [|a b l bs Hab _ IH]; [done|].
  change (mapM f (a :: l)) with (y ← f a; k ← mapM f l; mret (y :: k)).
  rewrite outcome_bind, Hab, outcome_bind, IH. done.
Qed.

Lemma outcome_mapM_inv {A B} (f : A → M B) (l : list A) (bs : list B) :
  outcome (mapM f l) = inr bs → Forall2 (λ a b, outcome (f a) = inr b) l bs.
Proof.
  revert bs. induction l as [|a l IH]; intros bs.
  - intros [= <-]. constructor.
  - change (mapM f (a :: l)) with (y ← f a; k ← mapM f l; mret (y :: k)).
    rewrite outcome_bind. destruct (outcome (f a)) as [e|b] eqn:Ha; [done|].
    rewrite outcome_bind. destruct (outcome (mapM f l)) as [e|k] eqn:Hl; [done|].
    intros [= <-]. constructor; [done|]. by apply IH.
Qed.

Lemma outcome_bind_ok {A B} (m : M A) (f : A → M B) a :
  outcome m = inr a → outcome (m ≫= f) = outcome (f a).
Proof. intros Hm. by rewrite outcome_bind, Hm. Qed.

Lemma outcome_bind_fail {A B} (m : M A) (f : A → M B) e :
  outcome m = inl e → outcome (m ≫= f) = inl e.
Proof. intros Hm. by rewrite outcome_bind, Hm. Qed.

Lemma outcome_bind_ext {A B} (m : M A) (f g : A → M B) :
  (∀ a, outcome (f a) = outcome (g a)) → outcome (m ≫= f) = outcome (m ≫= g).
Proof. intros Hfg. rewrite !outcome_bind. by destruct (outcome m). Qed.

Lemma outcome_bind_inr {A B} (m : M A) (f : A → M B) b :
  outcome (m ≫= f) = inr b ↔ ∃ a, outcome m = inr a ∧ outcome (f a) = inr b.
Proof.
  rewrite outcome_bind. destruct (outcome m) as [e|a].
  - split; [done|]. by intros (? & ? & _).
  - split; [by exists a|]. by intros (? & [= <-] & ?).
Qed.

Lemma outcome_log_bind {B} lvl msg (f : unit → M B) :
  outcome (log lvl msg ≫= f) = outcome (f ()).
Proof. by rewrite outcome_bind. Qed.

Lemma outcome_ret {A} (a : A) : outcome (mret a) = inr a.
Proof. done. Qed.

Lemma outcome_call_inr {A} op (r : result A) a :
  outcome (call op r) = inr a ↔ r = inr a.
Proof. rewrite outcome_call. destruct r; naive_solver. Qed.

Lemma outcome_py_inr {A} (r : result A) a :
  outcome (py r) = inr a ↔ r = inr a.
Proof. rewrite outcome_py. destruct r; naive_solver. Qed.

Lemma has_newline_app (a b : str) :
  has_newline (a +:+ b) = has_newline a || has_newline b.
Proof.
  induction a as [|c a IH]; [done|].
  change (has_newline (String c a +:+ b))
    with (bool_decide (c = ascii_of_nat 10) || bool_decide (c = ascii_of_nat 13)
          || has_newline (a +:+ b)).
  change (has_newline (String c a))
    with (bool_decide (c = ascii_of_nat 10) || bool_decide (c = ascii_of_nat 13)
          || has_newline a).
  by rewrite IH, orb_assoc.
Qed.

(** The response is made exactly when the file name holds no line break,
    and is then the PDF under the two headers. *)
Lemma pdf_response_inr name pdf r :
  pdf_response name pdf = inr r
  ↔ has_newline name = false ∧ r = pdf_answer name pdf.
Proof.
  unfold pdf_response, set_header, make_response, pdf_answer.
  rewrite has_newline_app.
  replace (has_newline "application/pdf") with false by (by vm_compute).
  replace (has_newline "inline;filename=") with false by (by vm_compute).
  cbn [orb status resp_headers body].
  destruct (has_newline name); split; try done.
  - by intros [? _].
  - by intros [= <-].
  - by intros [_ ->].
Qed.

Lemma pdf_response_body name pdf r : pdf_response name pdf = inr r → body r = pdf.
Proof. by intros (_ & ->)%pdf_response_inr. Qed.

(** What the last lines of a PDF view give, after its PDF is made. *)
Lemma outcome_respond name pdf r :
  outcome (response ← py (pdf_response name pdf); mret response) = inr r
  ↔ pdf_response name pdf = inr r.
Proof.
  rewrite outcome_bind, outcome_py.
  destruct (pdf_response name pdf) as [e|r']; [done|].
  rewrite outcome_ret. split; by intros [= <-].
Qed.

Lemma outcome_respond_log name pdf lvl msg r :
  outcome (response ← py (pdf_response name pdf); log lvl msg;; mret response) = inr r
  ↔ pdf_response name pdf = inr r.
Proof.
  rewrite outcome_bind, outcome_py.
  destruct (pdf_response name pdf) as [e|r']; [done|].
  rewrite outcome_log_bind, outcome_ret. split; by intros [= <-].
Qed.

(** ** The views *)

Section Properties.
Context {T : LibTypes} {L : Lib}.
Variable environ : gmap string string.

Lemma view_authorized ep req :
  authorized environ req →
  view environ ep req =
  match ep with
  | Index => index req
  | Home => home req
  | Generate => generate req
  | Multiple => multiple req
  | Zip2pdf => zip2pdf req
  end.
Proof.
  intros Ha. destruct ep; simpl; try done;
    unfold authenticate; by rewrite checkauth_authorized.
Qed.

Lemma outcome_render_each {X} (parse : X → result html) items docs :
  outcome (mapM (λ item, h ← call OpHTML (parse item);
                         call OpRender (render h [])) items) = inr docs
  ↔ Forall2 (rendered parse) items docs.
Proof.
  split.
  - intros Hm%outcome_mapM_inv. eapply Forall2_impl; [done|].
    intros item d. cbv beta. rewrite outcome_bind, outcome_call.
    destruct (parse item) as [e|h] eqn:Hp; [done|].
    rewrite outcome_call_inr. intros Hr. by exists h.
  - intros Hall. apply outcome_mapM_ok. eapply Forall2_impl; [done|].
    intros item d (h & Hp & Hr). cbv beta.
    by rewrite outcome_bind, outcome_call, Hp, outcome_call, Hr.
Qed.

Lemma outcome_merge_documents docs pdf :
  outcome (merge_documents docs) = inr pdf
  ↔ ∃ d0 rest, docs = d0 :: rest ∧
               doc_write_pdf (copy d0 (docs ≫= pages)) = inr pdf.
Proof.
  unfold merge_documents. destruct docs as [|d0 rest].
  - rewrite (outcome_bind_fail _ _ (Uncaught IndexError)) by done.
    split; [done|]. by intros (? & ? & ? & _).
  - rewrite (outcome_bind_ok _ _ d0) by done.
    rewrite outcome_call_inr. split.
    + intros Hw. by exists d0, rest.
    + by intros (? & ? & [= <- <-] & Hw).
Qed.

Lemma pages_copy_concat (d0 : Document) docs :
  pages (copy d0 (docs ≫= pages)) = concat (pages <$> docs).
Proof.
  unfold copy. cbn [pages]. induction docs as [|d docs IH]; [done|].
  rewrite fmap_cons. cbn [concat]. rewrite <- IH. done.
Qed.

(** C8: a GET request to /health is answered 200 with the body [ok],
    whatever its headers and whatever the environment: the view is not
    behind [authenticate]. *)
Theorem health_ok req :
  method req = "GET" →
  path req = "/health" →
  ∃ r, wsgi_app environ req = Some ([], inr r) ∧
       final_status (inr r) = 200 ∧ body r = "ok".
Proof.
  intros Hm Hp. exists (make_response "ok").
  unfold wsgi_app, match_request. rewrite Hm, Hp. by vm_compute.
Qed.

(** C10: on an authorized POST to /multiple whose body is the JSON array
    [[]], [documents[0]] raises [IndexError]; nothing catches it, so the
    client gets a 500, neither a 400 nor a PDF. *)
Theorem multiple_empty_array req s :
  authorized environ req →
  utf8_decode (data req) = inr s →
  json_loads s = inr (JArr []) →
  outcome (view environ Multiple req) = inl (Uncaught IndexError) ∧
  final_status (outcome (view environ Multiple req)) = 500 ∧
  EvCall OpWritePdf ∉ trace (view environ Multiple req).
Proof.
  intros Ha Hs Hj. rewrite (view_authorized Multiple) by done.
  unfold multiple, trace, outcome, call, py, log, mbind, M_bind.
  rewrite Hs. simpl. rewrite Hj. simpl.
  split_and!; [done..|].
  rewrite !not_elem_of_cons. split_and!; [done..|apply not_elem_of_nil].
Qed.

(** C5: on an authorized POST to /multiple whose body is a JSON array of
    strings, the view answers with a PDF exactly when every element, taken
    alone and with no stylesheet, renders to a document, the document
    made of all their pages can be written and the two headers of the
    response can be set (the file name holds no line break); that document
    holds the pages of element 0, then those of element 1, and so on, and
    its PDF is the body of the response. *)
Theorem multiple_concatenates req s hs r :
  authorized environ req →
  utf8_decode (data req) = inr s →
  json_loads s = inr (JArr (JStr <$> hs)) →
  outcome (view environ Multiple req) = inr r
  ↔ ∃ d0 rest pdf,
      Forall2 (rendered HTML_string) (JStr <$> hs) (d0 :: rest) ∧
      pages (copy d0 ((d0 :: rest) ≫= pages)) = concat (pages <$> d0 :: rest) ∧
      doc_write_pdf (copy d0 ((d0 :: rest) ≫= pages)) = inr pdf ∧
      pdf_response (filename req) pdf = inr r ∧
      body r = pdf.
Proof.
  intros Ha Hs Hj. rewrite (view_authorized Multiple) by done.
  unfold multiple. rewrite outcome_log_bind.
  rewrite (outcome_bind_ok _ _ s) by (by rewrite outcome_call, Hs).
  rewrite (outcome_bind_ok _ _ (JArr (JStr <$> hs))) by (by rewrite outcome_call, Hj).
  rewrite (outcome_bind_ok _ _ (JStr <$> hs)) by done.
  rewrite outcome_bind_inr. setoid_rewrite outcome_bind_inr.
  setoid_rewrite outcome_render_each. setoid_rewrite outcome_merge_documents.
  setoid_rewrite outcome_respond_log. split.
  - intros (docs & Hall & pdf & (d0 & rest & -> & Hw) & Hr).
    exists d0, rest, pdf.
    split_and!; [done|apply pages_copy_concat|done|done|].
    by apply pdf_response_body in Hr.
  - intros (d0 & rest & pdf & Hall & _ & Hw & Hr & _).
    exists (d0 :: rest). split; [done|]. exists pdf. split; [|done].
    by exists d0, rest.
Qed.

Lemma outcome_HTML_write_pdf h sheets pdf :
  outcome (HTML_write_pdf h sheets) = inr pdf
  ↔ ∃ d, render h sheets = inr d ∧ doc_write_pdf d = inr pdf.
Proof.
  unfold HTML_write_pdf. rewrite outcome_bind_inr.
  setoid_rewrite outcome_call_inr. done.
Qed.

Section Zip.
Variables (req : request) (z : zipfile) (fs : filesystem).
Hypothesis Hz : ZipFile (data req) = inr z.
Hypothesis Hfs : extractall z (mkdtemp "weasyprint-") = inr fs.

Lemma zip2pdf_none :
  html_files fs = [] →
  zip2pdf req =
  ([EvLog INFO ("POST  /zip2pdf?filename=" +:+ filename req);
    EvCall OpZipFile; EvCall OpExtractAll; EvCall OpGlob; EvCall OpGlob;
    EvLog WARNING "Zip archive contain no html files."],
   inl (HTTPException 400)).
Proof.
  unfold html_files. intros Hh.
  unfold zip2pdf, call, py, log, abort, mbind, M_bind.
  rewrite Hz. simpl. rewrite Hfs. simpl. rewrite Hh. done.
Qed.

Lemma zip2pdf_one h0 :
  html_files fs = [h0] →
  outcome (zip2pdf req) =
  outcome (pdf ← (html' ← call OpHTML (HTML_filename fs h0);
                  css' ← mapM (λ sheet, call OpCSS (CSS_filename fs sheet)) (css_files fs);
                  HTML_write_pdf html' css');
           response ← py (pdf_response (filename req) pdf);
           mret response).
Proof.
  unfold html_files, css_files. intros Hh. unfold zip2pdf.
  rewrite outcome_log_bind.
  rewrite (outcome_bind_ok _ _ z) by (by rewrite outcome_call, Hz).
  rewrite (outcome_bind_ok _ _ fs) by (by rewrite outcome_call, Hfs).
  rewrite (outcome_bind_ok _ _ [h0]) by (by rewrite outcome_call, Hh).
  rewrite (outcome_bind_ok _ _ _) by (by rewrite outcome_call).
  cbn [length bool_decide decide_rel]. rewrite bool_decide_eq_false_2 by done.
  rewrite bool_decide_eq_true_2 by done.
  cbn [py_index0]. rewrite py_ok_bind.
  apply outcome_bind_ext. intros pdf.
  apply outcome_bind_ext. intros response. by rewrite outcome_log_bind.
Qed.

Lemma zip2pdf_many :
  (2 ≤ length (html_files fs))%nat →
  outcome (zip2pdf req) =
  outcome (pdf ← (documents ← mapM (λ file, h ← call OpHTML (HTML_filename fs file);
                                           call OpRender (render h []))
                                   (html_files fs);
                  merge_documents documents);
           response ← py (pdf_response (filename req) pdf);
           mret response).
Proof.
  unfold html_files. intros Hh. unfold zip2pdf.
  rewrite outcome_log_bind.
  rewrite (outcome_bind_ok _ _ z) by (by rewrite outcome_call, Hz).
  rewrite (outcome_bind_ok _ _ fs) by (by rewrite outcome_call, Hfs).
  rewrite (outcome_bind_ok _ _ _) by (by rewrite outcome_call).
  rewrite (outcome_bind_ok _ _ _) by (by rewrite outcome_call).
  rewrite bool_decide_eq_false_2 by lia.
  rewrite bool_decide_eq_false_2 by lia.
  apply outcome_bind_ext. intros pdf.
  apply outcome_bind_ext. intros response. by rewrite outcome_log_bind.
Qed.

End Zip.

Lemma outcome_css_each {X} (parse : X → result css) files sheets :
  outcome (mapM (λ sheet, call OpCSS (parse sheet)) files) = inr sheets
  ↔ Forall2 (λ file c, parse file = inr c) files sheets.
Proof.
  split.
  - intros Hm%outcome_mapM_inv. eapply Forall2_impl; [done|].
    intros file c. cbv beta. by rewrite outcome_call_inr.
  - intros Hall. apply outcome_mapM_ok. eapply Forall2_impl; [done|].
    intros file c. cbv beta. by rewrite outcome_call_inr.
Qed.

Lemma aborts_within_HTML_write_pdf P h sheets : aborts_within P (HTML_write_pdf h sheets).
Proof. unfold HTML_write_pdf. auto with aborts. Qed.

Lemma aborts_within_merge_documents P docs : aborts_within P (merge_documents docs).
Proof. unfold merge_documents. auto with aborts. Qed.

#[local] Hint Resolve aborts_within_HTML_write_pdf aborts_within_merge_documents : aborts.

Lemma no_abort_generate req : no_abort (generate req).
Proof. unfold no_abort, generate, header_getitem. auto 20 with aborts. Qed.

Lemma no_abort_multiple req : no_abort (multiple req).
Proof. unfold no_abort, multiple. auto 20 with aborts. Qed.

Lemma zip2pdf_abort_inv req code :
  outcome (zip2pdf req) = inl (HTTPException code) →
  code = 400 ∧
  ∃ z fs, ZipFile (data req) = inr z ∧
          extractall z (mkdtemp "weasyprint-") = inr fs ∧ html_files fs = [].
Proof.
  unfold zip2pdf. rewrite outcome_log_bind.
  rewrite outcome_bind, outcome_call.
  destruct (ZipFile (data req)) as [e|z] eqn:Hz; [done|].
  rewrite outcome_bind, outcome_call.
  destruct (extractall z (mkdtemp "weasyprint-")) as [e|fs] eqn:Hfs; [done|].
  rewrite (outcome_bind_ok _ _ _) by (by rewrite outcome_call).
  rewrite (outcome_bind_ok _ _ _) by (by rewrite outcome_call).
  case_bool_decide as Hlen.
  - rewrite (outcome_bind_fail _ _ (HTTPException 400)) by done.
    intros [= <-]. split; [done|]. exists z, fs.
    split_and!; [done..|]. by apply nil_length_inv.
  - intros Hc. exfalso. revert Hc.
    match goal with |- outcome ?m = _ → False =>
      enough (no_abort m) as Hn by apply Hn end.
    unfold no_abort. auto 20 with aborts.
Qed.

(** Every response that a view returns has status 200. *)
Lemma view_answers_200 ep req r :
  outcome (view environ ep req) = inr r → status r = 200.
Proof.
  revert r.
  assert (∀ f, (∀ r, outcome (f req) = inr r → status r = 200) →
               ∀ r, outcome (checkauth environ f req) = inr r → status r = 200)
    as Hdeco.
  { intros f Hf r. destruct (headers req !! "X_API_KEY") as [v|] eqn:Hk.
    - rewrite (checkauth_present _ _ _ _ Hk). case_bool_decide; [apply Hf|done].
    - rewrite checkauth_absent by done. apply Hf. }
  destruct ep; cbn [view]; unfold authenticate;
    [by intros r [= <-] | by intros r [= <-] | apply Hdeco; intros r Hr..].
  - unfold generate in Hr.
    repeat (apply outcome_bind_inr in Hr as (? & ? & Hr); cbv beta zeta in Hr).
    injection Hr as <-.
    match goal with
    | H : outcome (py (pdf_response _ _)) = inr _ |- _ =>
        apply outcome_py_inr, pdf_response_inr in H as [_ ->]
    end.
    done.
  - unfold multiple in Hr.
    repeat (apply outcome_bind_inr in Hr as (? & ? & Hr); cbv beta zeta in Hr).
    injection Hr as <-.
    match goal with
    | H : outcome (py (pdf_response _ _)) = inr _ |- _ =>
        apply outcome_py_inr, pdf_response_inr in H as [_ ->]
    end.
    done.
  - unfold zip2pdf in Hr.
    repeat (apply outcome_bind_inr in Hr as (? & ? & Hr); cbv beta zeta in Hr).
    injection Hr as <-.
    match goal with
    | H : outcome (py (pdf_response _ _)) = inr _ |- _ =>
        apply outcome_py_inr, pdf_response_inr in H as [_ ->]
    end.
    done.
Qed.



(** What /pdf does with a body: the JSON reading and the raw reading. *)
Lemma generate_json req r :
  headers req !! "Content-Type" = Some "application/json" →
  outcome (generate req) = inr r
  ↔ ∃ s data' src h listed sheets css' d pdf,
      utf8_decode (data req) = inr s ∧ json_loads s = inr data' ∧
      py_getitem data' "html" = inr src ∧ HTML_string src = inr h ∧
      py_getitem data' "css" = inr listed ∧ py_iter listed = inr sheets ∧
      Forall2 (λ sheet c, CSS_string sheet = inr c) sheets css' ∧
      render h css' = inr d ∧ doc_write_pdf d = inr pdf ∧
      pdf_response (filename req) pdf = inr r.
Proof.
  intros Hct. unfold generate, header_getitem. rewrite outcome_log_bind, Hct.
  rewrite py_ok_bind. rewrite bool_decide_eq_true_2 by done.
  rewrite outcome_bind_inr. setoid_rewrite outcome_respond_log.
  repeat setoid_rewrite outcome_bind_inr.
  repeat setoid_rewrite outcome_py_inr. repeat setoid_rewrite outcome_call_inr.
  setoid_rewrite outcome_css_each. split.
  - intros (pdf & (s & Hs & data' & Hj & src & Hsrc & h & Hh & listed & Hl &
                   sheets & Hsh & css' & Hcss & d & Hd & Hw) & Hr).
    by exists s, data', src, h, listed, sheets, css', d, pdf.
  - intros (s & data' & src & h & listed & sheets & css' & d & pdf &
            Hs & Hj & Hsrc & Hh & Hl & Hsh & Hcss & Hd & Hw & Hr).
    exists pdf. split; [|done].
    exists s. split; [done|]. exists data'. split; [done|].
    exists src. split; [done|]. exists h. split; [done|].
    exists listed. split; [done|]. exists sheets. split; [done|].
    exists css'. split; [done|]. by exists d.
Qed.

Lemma generate_raw req ctype r :
  headers req !! "Content-Type" = Some ctype →
  ctype ≠ "application/json" →
  outcome (generate req) = inr r
  ↔ ∃ s h d pdf,
      utf8_decode (data req) = inr s ∧ HTML_string (JStr s) = inr h ∧
      render h [] = inr d ∧ doc_write_pdf d = inr pdf ∧
      pdf_response (filename req) pdf = inr r.
Proof.
  intros Hct Hne. unfold generate, header_getitem. rewrite outcome_log_bind, Hct.
  rewrite py_ok_bind. rewrite bool_decide_eq_false_2 by done.
  rewrite outcome_bind_inr. setoid_rewrite outcome_respond_log.
  repeat setoid_rewrite outcome_bind_inr.
  repeat setoid_rewrite outcome_call_inr. split.
  - intros (pdf & (s & Hs & h & Hh & d & Hd & Hw) & Hr).
    by exists s, h, d, pdf.
  - intros (s & h & d & pdf & Hs & Hh & Hd & Hw & Hr).
    exists pdf. split; [|done].
    exists s. split; [done|]. exists h. split; [done|]. by exists d.
Qed.

Lemma pdf_response_fields name pdf r :
  pdf_response name pdf = inr r →
  status r = 200 ∧
  resp_headers r !! "Content-Type" = Some "application/pdf" ∧
  resp_headers r !! "Content-Disposition" = Some ("inline;filename=" +:+ name) ∧
  body r = pdf.
Proof.
  intros (_ & ->)%pdf_response_inr. unfold pdf_answer.
  cbn [status resp_headers body].
  split_and!; [done| |by rewrite lookup_insert_eq|done].
  rewrite lookup_insert_ne by done. by rewrite lookup_insert_eq.
Qed.

(** C7: the views leave through [abort] in two places only: [checkauth]
    with 401, on a request that is not authorized, and [zip2pdf] with 400,
    when the archive holds no HTML file.  A body that is not JSON, a page
    that does not render and an archive that does not open each end the view
    with the exception of the library, which nothing catches: a 500. *)
Theorem explicit_statuses req :
  (∀ ep code, outcome (view environ ep req) = inl (HTTPException code) →
     (code = 401 ∧ ep ∈ [Generate; Multiple; Zip2pdf] ∧ ¬ authorized environ req) ∨
     (code = 400 ∧ ep = Zip2pdf ∧ authorized environ req ∧
      ∃ z fs, ZipFile (data req) = inr z ∧
              extractall z (mkdtemp "weasyprint-") = inr fs ∧
              html_files fs = [])) ∧
  (∀ ep e, outcome (view environ ep req) = inl (Uncaught e) →
     final_status (outcome (view environ ep req)) = 500) ∧
  (authorized environ req →
     (∀ s e, utf8_decode (data req) = inr s → json_loads s = inl e →
        outcome (view environ Multiple req) = inl (Uncaught e) ∧
        (headers req !! "Content-Type" = Some "application/json" →
         outcome (view environ Generate req) = inl (Uncaught e))) ∧
     (∀ ctype s h e, headers req !! "Content-Type" = Some ctype →
        ctype ≠ "application/json" →
        utf8_decode (data req) = inr s → HTML_string (JStr s) = inr h →
        render h [] = inl e →
        outcome (view environ Generate req) = inl (Uncaught e)) ∧
     (∀ e, ZipFile (data req) = inl e →
        outcome (view environ Zip2pdf req) = inl (Uncaught e))).
Proof.
  split_and!.
  - intros ep code Ho.
    destruct (decide (authorized environ req)) as [Ha|Hn].
    + right. rewrite view_authorized in Ho by done. destruct ep.
      * done.
      * done.
      * by apply no_abort_generate in Ho.
      * by apply no_abort_multiple in Ho.
      * apply zip2pdf_abort_inv in Ho as (-> & z & fs & Hz & Hfs & Hh).
        split_and!; [done..|]. by exists z, fs.
    + left. destruct ep; cbn [view] in Ho; [done|done|..];
        unfold authenticate in Ho;
        rewrite checkauth_unauthorized in Ho by done;
        injection Ho as <-; (split_and!; [done| |done]); set_solver.
  - intros ep e ->. done.
  - intros Ha. split_and!.
    + intros s e Hs Hj. split.
      * rewrite (view_authorized Multiple) by done. unfold multiple.
        rewrite outcome_log_bind.
        rewrite (outcome_bind_ok _ _ s) by (by rewrite outcome_call, Hs).
        by rewrite (outcome_bind_fail _ _ (Uncaught e)) by (by rewrite outcome_call, Hj).
      * intros Hct. rewrite (view_authorized Generate) by done.
        unfold generate, header_getitem. rewrite outcome_log_bind, Hct, py_ok_bind.
        rewrite bool_decide_eq_true_2 by done.
        apply outcome_bind_fail.
        rewrite (outcome_bind_ok _ _ s) by (by rewrite outcome_call, Hs).
        by rewrite (outcome_bind_fail _ _ (Uncaught e)) by (by rewrite outcome_call, Hj).
    + intros ctype s h e Hct Hne Hs Hh Hr.
      rewrite (view_authorized Generate) by done.
      unfold generate, header_getitem. rewrite outcome_log_bind, Hct, py_ok_bind.
      rewrite bool_decide_eq_false_2 by done.
      apply outcome_bind_fail.
      rewrite (outcome_bind_ok _ _ s) by (by rewrite outcome_call, Hs).
      rewrite (outcome_bind_ok _ _ h) by (by rewrite outcome_call, Hh).
      unfold HTML_write_pdf.
      by rewrite (outcome_bind_fail _ _ (Uncaught e)) by (by rewrite outcome_call, Hr).
    + intros e Hz. rewrite (view_authorized Zip2pdf) by done. unfold zip2pdf.
      rewrite outcome_log_bind.
      by rewrite (outcome_bind_fail _ _ (Uncaught e)) by (by rewrite outcome_call, Hz).
Qed.

Lemma trace_bind_l {A B} (m : M A) (f : A → M B) ev :
  ev ∈ trace m → ev ∈ trace (m ≫= f).
Proof.
  intros Hev. rewrite trace_bind. destruct (outcome m); [done|].
  apply elem_of_app. by left.
Qed.

Lemma trace_log_bind {B} lvl msg (f : unit → M B) :
  trace (log lvl msg ≫= f) = EvLog lvl msg :: trace (f ()).
Proof. by rewrite trace_bind. Qed.

(** C6, at a request that the code does not serve: POST /pdf with a page as
    body and no [Content-Type] header.  [request.headers['Content-Type']]
    raises [KeyError] right after the first log line: the body is read
    neither as JSON nor as HTML, and the client gets a 500. *)
Theorem generate_without_content_type body :
  wsgi_app environ (untyped_request body)
    = Some ([EvLog INFO "POST  /pdf?filename=unnamed.pdf"],
            inl (Uncaught (KeyError "Content-Type"))) ∧
  final_status (outcome (view environ Generate (untyped_request body))) = 500.
Proof.
  assert (authorized environ (untyped_request body)) as Ha by (by left).
  assert (generate (untyped_request body)
          = ([EvLog INFO "POST  /pdf?filename=unnamed.pdf"],
             inl (Uncaught (KeyError "Content-Type")))) as Hg by (by vm_compute).
  split.
  - unfold wsgi_app.
    replace (match_request (untyped_request body)) with (Some Generate)
      by (by vm_compute).
    cbn [mbind option_bind]. by rewrite (view_authorized Generate), Hg.
  - by rewrite (view_authorized Generate), Hg.
Qed.

End Properties.

(** C1, at a request that the code lets through: POST /pdf with a page as
    body and no [X_API_KEY] header, the secret being set.  The request
    reaches [generate], which decodes the body; whatever the libraries do
    with it, the answer is not 401. *)
Theorem absent_key_is_served {T : LibTypes} {L : Lib} body :
  wsgi_app Double.environ (keyless_request body)
    = Some (generate (keyless_request body)) ∧
  EvCall OpDecode ∈ trace (generate (keyless_request body)) ∧
  final_status (outcome (generate (keyless_request body))) ≠ 401.
Proof.
  assert (authorized Double.environ (keyless_request body)) as Ha by (by left).
  split_and!.
  - unfold wsgi_app.
    replace (match_request (keyless_request body)) with (Some Generate)
      by (by vm_compute).
    cbn [mbind option_bind]. by rewrite (view_authorized _ Generate).
  - unfold generate, header_getitem. rewrite trace_log_bind.
    replace (headers (keyless_request body) !! "Content-Type")
      with (Some "text/html") by (by vm_compute).
    rewrite py_ok_bind, bool_decide_eq_false_2 by done.
    right. do 2 apply trace_bind_l. left.
  - destruct (outcome (generate (keyless_request body))) as [[code|e]|r] eqn:Ho.
    + by apply no_abort_generate in Ho.
    + done.
    + rewrite <- (view_authorized Double.environ Generate) in Ho by done.
      apply view_answers_200 in Ho. simpl. congruence.
Qed.

(** ** The theorems on concrete requests *)

Lemma checkauth_spec_witness :
  (authorized Double.environ (Double.post "/pdf" [("X_API_KEY", "s3cret")] "") ∧
   checkauth Double.environ index (Double.post "/pdf" [("X_API_KEY", "s3cret")] "")
     = index (Double.post "/pdf" [("X_API_KEY", "s3cret")] "")) ∧
  (¬ authorized Double.environ (Double.post "/pdf" [("X_API_KEY", "guess")] "") ∧
   checkauth Double.environ index (Double.post "/pdf" [("X_API_KEY", "guess")] "")
     = abort 401).
Proof.
  split.
  - assert (authorized Double.environ
              (Double.post "/pdf" [("X_API_KEY", "s3cret")] "")) as Ha.
    { right. exists "s3cret". split; vm_compute; reflexivity. }
    split; [exact Ha|].
    exact (proj1 (checkauth_spec Double.environ index _) Ha).
  - assert (¬ authorized Double.environ
                (Double.post "/pdf" [("X_API_KEY", "guess")] "")) as Hn.
    { intros [Hk|(v & Hk & He)]; vm_compute in Hk; [discriminate|].
      vm_compute in He. congruence. }
    split; [exact Hn|].
    exact (proj2 (checkauth_spec Double.environ index _) Hn).
Defined.

Lemma checkauth_unset_secret_witness :
  (∅ : gmap string string) !! "X_API_KEY" = None ∧
  checkauth ∅ index (Double.post "/pdf" [("X_API_KEY", "anything")] "") = abort 401 ∧
  checkauth ∅ index (Double.post "/pdf" [] "") = index (Double.post "/pdf" [] "").
Proof.
  split_and!.
  - apply lookup_empty.
  - apply (proj1 (checkauth_unset_secret ∅ index
                    (Double.post "/pdf" [("X_API_KEY", "anything")] "")
                    (lookup_empty _)) "anything").
    vm_compute; reflexivity.
  - apply (proj2 (checkauth_unset_secret ∅ index (Double.post "/pdf" [] "")
                    (lookup_empty _))).
    vm_compute; reflexivity.
Defined.

Lemma health_ok_witness :
  ∃ r, wsgi_app (T:=Double.types) (L:=Double.lib) Double.environ
         {| method := "GET"; path := "/health"; args := ∅;
            headers := {[ "X_API_KEY" := "guess" ]}; data := "" |}
       = Some ([], inr r) ∧
       final_status (inr r) = 200 ∧ body r = "ok".
Proof. apply health_ok; reflexivity. Defined.

Lemma multiple_empty_array_witness :
  outcome (view (T:=Double.types) (L:=Double.lib) Double.environ Multiple
             (Double.post "/multiple" [] Double.empty_array))
    = inl (Uncaught IndexError) ∧
  final_status (outcome (view (T:=Double.types) (L:=Double.lib) Double.environ
                           Multiple (Double.post "/multiple" [] Double.empty_array)))
    = 500 ∧
  EvCall OpWritePdf ∉ trace (view (T:=Double.types) (L:=Double.lib) Double.environ
                               Multiple (Double.post "/multiple" [] Double.empty_array)).
Proof.
  apply (multiple_empty_array (T:=Double.types) (L:=Double.lib) Double.environ
           _ Double.empty_array).
  - left. vm_compute; reflexivity.
  - reflexivity.
  - reflexivity.
Defined.

Lemma multiple_concatenates_witness :
  outcome (view (T:=Double.types) (L:=Double.lib) Double.environ Multiple
             (Double.post "/multiple" [] Double.two_pages))
    = inr (pdf_answer "unnamed.pdf" "%PDF<p>a</p>|<p>b</p>").
Proof.
  apply (multiple_concatenates (T:=Double.types) (L:=Double.lib) Double.environ
           _ Double.two_pages ["<p>a</p>"; "<p>b</p>"]).
  - left. vm_compute; reflexivity.
  - reflexivity.
  - reflexivity.
  - exists (Build_Document Double.types ["<p>a</p>"] ()),
           [Build_Document Double.types ["<p>b</p>"] ()],
           "%PDF<p>a</p>|<p>b</p>".
    split_and!; [|reflexivity..].
    repeat constructor; eexists; split; reflexivity.
Defined.



Lemma explicit_statuses_witness :
  outcome (view (T:=Double.types) (L:=Double.lib) Double.environ Zip2pdf
             (Double.post "/zip2pdf" [] "junk"))
    = inl (Uncaught (LibraryError "BadZipFile")) ∧
  (outcome (view (T:=Double.types) (L:=Double.lib) Double.environ Zip2pdf
              (Double.post "/zip2pdf" [("X_API_KEY", "guess")] "junk"))
     = inl (HTTPException 401) →
   ¬ authorized Double.environ (Double.post "/zip2pdf" [("X_API_KEY", "guess")] "junk")).
Proof.
  split.
  - apply (explicit_statuses (T:=Double.types) (L:=Double.lib) Double.environ
             (Double.post "/zip2pdf" [] "junk")).
    + left. vm_compute; reflexivity.
    + reflexivity.
  - intros Ho.
    destruct (explicit_statuses (T:=Double.types) (L:=Double.lib) Double.environ
                (Double.post "/zip2pdf" [("X_API_KEY", "guess")] "junk"))
      as (Hab & _).
    destruct (Hab Zip2pdf 401 Ho) as [(_ & _ & Hn)|(Hc & _)]; [exact Hn|discriminate].
Defined.

(** ** What a computation emits *)

Create HintDb emits.

Lemma emits_only_ret {A} P (a : A) : emits_only P (mret a).
Proof. constructor. Qed.

Lemma emits_only_abort {A} P code : emits_only P (@abort A code).
Proof. constructor. Qed.

Lemma emits_only_py {A} P (r : result A) : emits_only P (py r).
Proof. constructor. Qed.

Lemma emits_only_log (P : event → Prop) lvl msg :
  P (EvLog lvl msg) → emits_only P (log lvl msg).
Proof. intros HP. by repeat constructor. Qed.

Lemma emits_only_call {A} (P : event → Prop) op (r : result A) :
  P (EvCall op) → emits_only P (call op r).
Proof. intros HP. by repeat constructor. Qed.

Lemma emits_only_bind {A B} P (m : M A) (f : A → M B) :
  emits_only P m → (∀ a, emits_only P (f a)) → emits_only P (m ≫= f).
Proof.
  unfold emits_only. intros Hm Hf. rewrite trace_bind.
  destruct (outcome m); [done|]. apply Forall_app. split; [done|apply Hf].
Qed.

Lemma emits_only_if {A} P (c : bool) (m1 m2 : M A) :
  emits_only P m1 → emits_only P m2 → emits_only P (if c then m1 else m2).
Proof. by destruct c. Qed.

Lemma emits_only_mapM {A B} P (f : A → M B) (l : list A) :
  (∀ a, emits_only P (f a)) → emits_only P (mapM f l).
Proof.
  intros Hf. induction l as [|x l IH].
  - apply emits_only_ret.
  - apply emits_only_bind; [apply Hf|]. intros y.
    apply emits_only_bind; [apply IH|]. intros k. apply emits_only_ret.
Qed.

#[local] Hint Resolve emits_only_ret emits_only_abort emits_only_py emits_only_log
  emits_only_call emits_only_bind emits_only_if emits_only_mapM : emits.

Lemma emits_only_not_elem {A} (P : event → Prop) (m : M A) ev :
  emits_only P m → ¬ P ev → ev ∉ trace m.
Proof.
  unfold emits_only. rewrite Forall_forall. intros Hall Hev Hin. by apply Hev, Hall.
Qed.

Lemma marks_success_bind {A B} ev (m : M A) (f : A → M B) :
  emits_only (λ ev', ev' ≠ ev) m →
  (∀ a, marks_success ev (f a)) →
  marks_success ev (m ≫= f).
Proof.
  unfold marks_success. intros Hm Hf.
  pose proof (emits_only_not_elem _ m ev Hm) as Hnot.
  rewrite trace_bind, outcome_bind. destruct (outcome m) as [e|a].
  - split; [intros Hin; by destruct Hnot; [auto|]|by intros [? ?]].
  - rewrite elem_of_app, <- Hf. split; [intros [Hin|Hin]|by right]; [|done].
    by destruct Hnot; [auto|].
Qed.

Lemma marks_success_last {A} lvl msg (a : A) :
  marks_success (EvLog lvl msg) (log lvl msg ≫= λ _, mret a).
Proof. split; [by exists a|]. intros _. left. Qed.

(** ** More on the views *)

Section Responses.
Context {T : LibTypes} {L : Lib}.
Variable environ : gmap string string.

Lemma checkauth_cases (f : request → M response) req :
  checkauth environ f req = f req ∨ checkauth environ f req = abort 401.
Proof.
  destruct (decide (authorized environ req)).
  - left. by apply checkauth_authorized.
  - right. by apply checkauth_unauthorized.
Qed.

(** What a PDF view returns is what [pdf_response] makes of its file name
    and of some PDF. *)
Lemma pdf_view_returns ep req r :
  pdf_endpoint ep →
  outcome (view environ ep req) = inr r →
  ∃ pdf, pdf_response (filename req) pdf = inr r.
Proof.
  assert (∀ f, (∀ r, outcome (f req) = inr r →
                     ∃ pdf, pdf_response (filename req) pdf = inr r) →
               ∀ r, outcome (checkauth environ f req) = inr r →
                    ∃ pdf, pdf_response (filename req) pdf = inr r) as Hdeco.
  { intros f Hf r'. destruct (checkauth_cases f req) as [-> | ->]; [apply Hf|done]. }
  assert (∀ (m : M bytes) lvl msg r,
            outcome (pdf ← m; response ← py (pdf_response (filename req) pdf);
                     log lvl msg;; mret response) = inr r →
            ∃ pdf, pdf_response (filename req) pdf = inr r) as Htail.
  { intros m lvl msg r' (pdf & _ & Hr)%outcome_bind_inr.
    apply outcome_respond_log in Hr. by exists pdf. }
  intros [-> | [-> | ->]]; cbn [view]; unfold authenticate; revert r;
    apply Hdeco; intros r Hr.
  - unfold generate in Hr. cbv zeta in Hr.
    do 2 (apply outcome_bind_inr in Hr as (? & _ & Hr)). by apply Htail in Hr.
  - unfold multiple in Hr. cbv zeta in Hr.
    do 5 (apply outcome_bind_inr in Hr as (? & _ & Hr)). by apply Htail in Hr.
  - unfold zip2pdf in Hr. cbv zeta in Hr.
    do 5 (apply outcome_bind_inr in Hr as (? & _ & Hr)). by apply Htail in Hr.
Qed.

(** X1: whatever /pdf, /multiple or /zip2pdf returns has status 200, the
    header [Content-Type: application/pdf] in place of the one that
    [make_response] sets, and the header [Content-Disposition:
    inline;filename=] followed, as it is, by the [filename] argument of the
    query, or by [unnamed.pdf] without one. *)
Theorem pdf_view_headers ep req r :
  pdf_endpoint ep →
  outcome (view environ ep req) = inr r →
  status r = 200 ∧
  resp_headers r !! "Content-Type" = Some "application/pdf" ∧
  resp_headers r !! "Content-Disposition"
    = Some ("inline;filename=" +:+ default "unnamed.pdf" (args req !! "filename")).
Proof.
  intros Hep Hr. destruct (pdf_view_returns _ _ _ Hep Hr) as [pdf Hpdf].
  by destruct (pdf_response_fields _ _ _ Hpdf) as (Hs & Hct & Hcd & _).
Qed.

Lemma view_abort_codes ep req code :
  outcome (view environ ep req) = inl (HTTPException code) →
  code = 400 ∨ code = 401.
Proof.
  destruct ep; cbn [view]; unfold authenticate; [done|done|..].
  - destruct (checkauth_cases generate req) as [-> | ->].
    + intros Ho. by apply no_abort_generate in Ho.
    + intros [= <-]. by right.
  - destruct (checkauth_cases multiple req) as [-> | ->].
    + intros Ho. by apply no_abort_multiple in Ho.
    + intros [= <-]. by right.
  - destruct (checkauth_cases zip2pdf req) as [-> | ->].
    + intros (-> & _)%zip2pdf_abort_inv. by left.
    + intros [= <-]. by right.
Qed.

(** X2: whatever the request, the environment and the libraries, a view
    ends with one of four statuses: 200, 400, 401 or 500. *)
Theorem view_statuses ep req :
  final_status (outcome (view environ ep req)) ∈ [200; 400; 401; 500].
Proof.
  destruct (outcome (view environ ep req)) as [[code|e]|r] eqn:Ho; cbn [final_status].
  - apply view_abort_codes in Ho as [-> | ->]; set_solver.
  - set_solver.
  - apply view_answers_200 in Ho as ->. set_solver.
Qed.

End Responses.

Section Logging.
Context {T : LibTypes} {L : Lib}.
Variable environ : gmap string string.

#[local] Hint Extern 1 (_ ≠ _) => (cbn; congruence) : emits.

Lemma marks_success_checkauth ev (f : request → M response) req :
  marks_success ev (f req) → marks_success ev (checkauth environ f req).
Proof.
  destruct (checkauth_cases environ f req) as [-> | ->]; [done|].
  intros _. split; [by intros ?%elem_of_nil|by intros [? ?]].
Qed.

Lemma emits_only_HTML_write_pdf (P : event → Prop) h sheets :
  P (EvCall OpRender) → P (EvCall OpWritePdf) → emits_only P (HTML_write_pdf h sheets).
Proof. intros. unfold HTML_write_pdf. auto with emits. Qed.

Lemma emits_only_merge_documents (P : event → Prop) docs :
  P (EvCall OpWritePdf) → emits_only P (merge_documents docs).
Proof. intros. unfold merge_documents. auto with emits. Qed.

#[local] Hint Resolve emits_only_HTML_write_pdf emits_only_merge_documents : emits.

(** X3: the line [ ==> POST  <path>?filename=<name>  ok] is in the log of
    /pdf, /multiple and /zip2pdf exactly when the view returns a response:
    a request that is aborted or that ends in an exception never logs it. *)
Theorem ok_line_marks_success ep req :
  pdf_endpoint ep →
  marks_success (ok_line ep req) (view environ ep req).
Proof.
  intros [-> | [-> | ->]]; cbn [view]; unfold authenticate;
    apply marks_success_checkauth.
  - unfold generate, header_getitem. cbv zeta.
    apply marks_success_bind; [auto with emits|intros _].
    apply marks_success_bind; [auto with emits|intros ctype].
    apply marks_success_bind; [auto 20 with emits|intros pdf].
    apply marks_success_bind; [auto with emits|intros response].
    apply marks_success_last.
  - unfold multiple. cbv zeta.
    apply marks_success_bind; [auto with emits|intros _].
    apply marks_success_bind; [auto with emits|intros s].
    apply marks_success_bind; [auto with emits|intros htmls].
    apply marks_success_bind; [auto with emits|intros items].
    apply marks_success_bind; [auto 20 with emits|intros documents].
    apply marks_success_bind; [auto 20 with emits|intros pdf].
    apply marks_success_bind; [auto with emits|intros response].
    apply marks_success_last.
  - unfold zip2pdf. cbv zeta.
    apply marks_success_bind; [auto with emits|intros _].
    apply marks_success_bind; [auto with emits|intros myzip].
    apply marks_success_bind; [auto with emits|intros fs].
    apply marks_success_bind; [auto with emits|intros htmls].
    apply marks_success_bind; [auto with emits|intros csss].
    apply marks_success_bind; [auto 20 with emits|intros pdf].
    apply marks_success_bind; [auto with emits|intros response].
    apply marks_success_last.
Qed.

End Logging.

Section Bodies.
Context {T : LibTypes} {L : Lib}.
Variable environ : gmap string string.

#[local] Hint Extern 1 (_ ≠ _) => (cbn; congruence) : emits.

(** X4: when the [Content-Type] of a POST to /pdf is there and is anything
    but the exact string [application/json] (so also when it is
    [application/json] with a parameter), the body is never handed to
    [json.loads] and no stylesheet is made: the decoded body as a whole is
    the page, rendered with no stylesheet, and the answer is a PDF exactly
    when decoding, parsing, rendering and writing all succeed and the two
    headers of the response can be set (the file name holds no line
    break). *)
Theorem generate_raw_html req ctype r :
  headers req !! "Content-Type" = Some ctype →
  ctype ≠ "application/json" →
  (outcome (generate req) = inr r
   ↔ ∃ s h d pdf,
       utf8_decode (data req) = inr s ∧ HTML_string (JStr s) = inr h ∧
       render h [] = inr d ∧ doc_write_pdf d = inr pdf ∧
       pdf_response (filename req) pdf = inr r) ∧
  (EvCall OpJsonLoads ∉ trace (generate req)) ∧
  (EvCall OpCSS ∉ trace (generate req)).
Proof.
  intros Hct Hne. split; [by apply (generate_raw req ctype)|].
  assert (emits_only (λ ev, ev ≠ EvCall OpJsonLoads ∧ ev ≠ EvCall OpCSS)
            (generate req)) as Hall.
  { unfold generate, header_getitem. rewrite Hct.
    apply emits_only_bind; [apply emits_only_log; by split|intros _].
    rewrite py_ok_bind, bool_decide_eq_false_2 by done.
    unfold HTML_write_pdf.
    repeat first
      [ apply emits_only_ret
      | apply emits_only_py
      | apply emits_only_log; by split
      | apply emits_only_call; by split
      | apply emits_only_bind; [|intros ?] ]. }
  unfold emits_only in Hall. rewrite Forall_forall in Hall.
  split; intros Hin; apply Hall in Hin; by destruct Hin.
Qed.

(** X6: what /pdf does with a JSON body that has not the two keys.  A
    value that is no object raises [TypeError] and an object without
    [html] raises [KeyError], both before any page is parsed; an object
    with [html] and without [css] raises [KeyError] once the page is
    parsed and before anything is rendered.  None is caught: a 500. *)
Theorem generate_json_keys req s v :
  headers req !! "Content-Type" = Some "application/json" →
  utf8_decode (data req) = inr s →
  json_loads s = inr v →
  ((∀ members, v ≠ JObj members) →
     outcome (generate req) = inl (Uncaught TypeError) ∧
     EvCall OpHTML ∉ trace (generate req)) ∧
  (∀ members, v = JObj members → assoc "html" members = None →
     outcome (generate req) = inl (Uncaught (KeyError "html")) ∧
     EvCall OpHTML ∉ trace (generate req)) ∧
  (∀ members src h, v = JObj members → assoc "html" members = Some src →
     HTML_string src = inr h → assoc "css" members = None →
     outcome (generate req) = inl (Uncaught (KeyError "css")) ∧
     final_status (outcome (generate req)) = 500 ∧
     EvCall OpRender ∉ trace (generate req)).
Proof.
  intros Hct Hs Hj.
  assert (∀ e, py_getitem v "html" = inl e →
            outcome (generate req) = inl (Uncaught e) ∧
            EvCall OpHTML ∉ trace (generate req)) as Hearly.
  { intros e Hg.
    unfold generate, header_getitem, trace, outcome, call, py, log, mbind, M_bind.
    rewrite Hct. simpl. rewrite Hs. simpl. rewrite Hj. simpl. rewrite Hg. simpl.
    split; [done|].
    rewrite !not_elem_of_cons. split_and!; [done..|apply not_elem_of_nil]. }
  split_and!.
  - intros Hv. apply Hearly. destruct v; try done. by destruct (Hv members).
  - intros members -> Hh. apply Hearly. simpl. by rewrite Hh.
  - intros members src h -> Hh Hsrc Hc.
    unfold generate, header_getitem, trace, outcome, call, py, log, mbind, M_bind.
    rewrite Hct. simpl. rewrite Hs. simpl. rewrite Hj. simpl.
    rewrite Hh. simpl. rewrite Hsrc. simpl. rewrite Hc. simpl.
    split_and!; [done..|].
    rewrite !not_elem_of_cons. split_and!; [done..|apply not_elem_of_nil].
Qed.

End Bodies.

(** ** Comprehensions that stop *)

(** When the elements before [bad] succeed and [bad] fails, the
    comprehension ends with the failure of [bad] and the elements after it
    are not touched. *)
Lemma mapM_first_failure {A B} (f : A → M B) pre bad post bs e :
  Forall2 (λ a b, outcome (f a) = inr b) pre bs →
  outcome (f bad) = inl e →
  outcome (mapM f (pre ++ bad :: post)) = inl e ∧
  trace (mapM f (pre ++ bad :: post)) = ((pre ≫= λ a, trace (f a)) ++ trace (f bad))%list.
Proof.
  intros Hpre Hbad. induction Hpre as [|a b pre bs Hab _ [IHo IHt]].
  - change (mapM f ([] ++ bad :: post)) with (y ← f bad; k ← mapM f post; mret (y :: k)).
    by rewrite outcome_bind, trace_bind, Hbad.
  - change (mapM f ((a :: pre) ++ bad :: post))
      with (y ← f a; k ← mapM f (pre ++ bad :: post); mret (y :: k)).
    rewrite outcome_bind, trace_bind, Hab, outcome_bind, trace_bind, IHo, IHt.
    split; [done|]. cbn [mbind list_bind]. by rewrite <- app_assoc.
Qed.

Section Multiple.
Context {T : LibTypes} {L : Lib}.

(** X7: a body of /multiple that is a JSON number, boolean or [null] is
    not iterable: the comprehension raises [TypeError] right after
    [json.loads], nothing is parsed or rendered, and the client gets a
    500. *)
Theorem multiple_not_iterable req s v :
  utf8_decode (data req) = inr s →
  json_loads s = inr v →
  (v = JNull ∨ (∃ b, v = JBool b) ∨ (∃ n, v = JNum n)) →
  multiple req =
  ([start_line Multiple req; EvCall OpDecode; EvCall OpJsonLoads],
   inl (Uncaught TypeError)).
Proof.
  intros Hs Hj Hv.
  unfold multiple, call, py, log, mbind, M_bind.
  rewrite Hs. simpl. rewrite Hj. simpl.
  by destruct Hv as [-> | [[b ->] | [n ->]]].
Qed.

(** X8: /multiple has no partial result.  When the elements before
    [bad] render and [bad] does not parse or does not render, the view ends
    with the exception of [bad]; the elements after it are not parsed, and
    no PDF is written for the documents already rendered. *)
Theorem multiple_first_failure req s v (pre : list json) bad post docs e :
  utf8_decode (data req) = inr s →
  json_loads s = inr v →
  py_iter v = inr (pre ++ bad :: post)%list →
  Forall2 (rendered HTML_string) pre docs →
  match HTML_string bad with
  | inl e' => e' = e
  | inr h => render h [] = inl e
  end →
  outcome (multiple req) = inl (Uncaught e) ∧
  trace (multiple req) =
    ([start_line Multiple req; EvCall OpDecode; EvCall OpJsonLoads]
     ++ (pre ≫= λ _, [EvCall OpHTML; EvCall OpRender])
     ++ match HTML_string bad with
        | inl _ => [EvCall OpHTML]
        | inr _ => [EvCall OpHTML; EvCall OpRender]
        end)%list ∧
  EvCall OpWritePdf ∉ trace (multiple req).
Proof.
  intros Hs Hj Hi Hpre Hbad.
  set (f := λ item : json, h ← call OpHTML (HTML_string item);
                          call OpRender (render h [])).
  assert (Forall2 (λ a b, outcome (f a) = inr b) pre docs) as Hok.
  { eapply Forall2_impl; [done|]. intros item d (h & Hp & Hr). subst f. cbv beta.
    by rewrite outcome_bind, outcome_call, Hp, outcome_call, Hr. }
  assert (outcome (f bad) = inl (Uncaught e) ∧
          trace (f bad) = match HTML_string bad with
                          | inl _ => [EvCall OpHTML]
                          | inr _ => [EvCall OpHTML; EvCall OpRender]
                          end) as [Hbo Hbt].
  { subst f. cbv beta. rewrite outcome_bind, trace_bind, outcome_call.
    destruct (HTML_string bad) as [e'|h]; [by subst|].
    by rewrite outcome_call, Hbad. }
  destruct (mapM_first_failure f pre bad post docs _ Hok Hbo) as [Hmo Hmt].
  assert ((pre ≫= λ a, trace (f a)) = (pre ≫= λ _, [EvCall OpHTML; EvCall OpRender]))
    as Hpt.
  { clear -Hok. induction Hok as [|a b pre docs Hab _ IH]; [done|].
    cbn [mbind list_bind]. rewrite IH. f_equal.
    subst f. cbv beta in *. rewrite outcome_bind, outcome_call in Hab.
    rewrite trace_bind, outcome_call.
    by destruct (HTML_string a). }
  assert (trace (multiple req) =
          ([start_line Multiple req; EvCall OpDecode; EvCall OpJsonLoads]
           ++ trace (mapM f (pre ++ bad :: post)%list))%list ∧
          outcome (multiple req) = inl (Uncaught e)) as [Ht Ho].
  { unfold multiple. cbv zeta. fold f.
    rewrite trace_log_bind, outcome_log_bind.
    rewrite trace_bind, outcome_bind, outcome_call, Hs.
    rewrite trace_bind, outcome_bind, outcome_call, Hj.
    rewrite trace_bind, outcome_bind, outcome_py, Hi.
    rewrite trace_bind, outcome_bind, Hmo. done. }
  split_and!; [done| |].
  - by rewrite Ht, Hmt, Hpt, Hbt.
  - rewrite Ht, Hmt, Hpt, Hbt. rewrite !not_elem_of_app, !not_elem_of_cons.
    split_and!; [done..|apply not_elem_of_nil| |].
    + clear. induction pre as [|a pre IH]; [apply not_elem_of_nil|].
      cbn [mbind list_bind]. rewrite !not_elem_of_app, !not_elem_of_cons.
      split_and!; [done..|apply not_elem_of_nil|done].
    + destruct (HTML_string bad); rewrite !not_elem_of_cons;
        (split_and!; [done..|apply not_elem_of_nil]).
Qed.

End Multiple.

(** ** The usage page and the unused check *)

(** X9: a GET request to / is answered with the usage page and status 200,
    as HTML; the view is not behind [authenticate], logs nothing and calls
    no library, whatever the headers and the environment. *)
Theorem home_ok {T : LibTypes} {L : Lib} environ req :
  method req = "GET" →
  path req = "/" →
  ∃ r, wsgi_app environ req = Some ([], inr r) ∧
       status r = 200 ∧ body r = home_page ∧
       resp_headers r !! "Content-Type" = Some "text/html; charset=utf-8".
Proof.
  intros Hm Hp. exists (make_response home_page). split; [|done].
  unfold wsgi_app, match_request. rewrite Hm, Hp. by vm_compute.
Qed.

(** X11: [auth()] lets no request through.  Once the configuration is
    loaded and the header is there, a [bool] is compared with the header, a
    [str], and the two are never equal: the answer is 401 even when the
    header carries the secret.  Otherwise it ends in the exception of
    [from_envvar] or in the [KeyError] of the missing header. *)
Theorem auth_never_returns from_envvar req :
  (∀ b, outcome (auth from_envvar req) ≠ inr b) ∧
  (∀ loaded v, from_envvar "X_API_KEY" = inr loaded →
               headers req !! "X_API_KEY" = Some v →
               auth from_envvar req = abort 401) ∧
  (∀ loaded, from_envvar "X_API_KEY" = inr loaded →
             headers req !! "X_API_KEY" = None →
             outcome (auth from_envvar req) = inl (Uncaught (KeyError "X_API_KEY"))).
Proof.
  unfold auth, header_getitem. split_and!.
  - intros b. rewrite outcome_bind, outcome_py.
    destruct (from_envvar "X_API_KEY") as [e|loaded]; [done|].
    rewrite outcome_bind, outcome_py.
    by destruct (headers req !! "X_API_KEY").
  - intros loaded v -> ->. by rewrite !py_ok_bind.
  - intros loaded -> ->. by rewrite py_ok_bind.
Qed.

(** ** JSON bodies, archives and the logger *)

Lemma py_getitem_inr v k x :
  py_getitem v k = inr x ↔ ∃ members, v = JObj members ∧ assoc k members = Some x.
Proof.
  destruct v; simpl; try (split; [done|by intros (? & ? & _)]).
  destruct (assoc k members) as [y|] eqn:Hk.
  - split; [intros [= <-]; by exists members|].
    intros (? & [= <-] & Hy). congruence.
  - split; [done|]. intros (? & [= <-] & Hy). congruence.
Qed.

Lemma getLevelName_addLevelName n name st m :
  getLevelName (addLevelName n name st) m
  = if decide (n = m) then name else getLevelName st m.
Proof.
  unfold getLevelName, addLevelName. cbn [levelToName].
  case_decide as Hnm; [subst; by rewrite lookup_insert_eq|].
  by rewrite lookup_insert_ne.
Qed.

Section Archive.
Context {T : LibTypes} {L : Lib}.

(** X5: with [Content-Type: application/json], /pdf answers with a PDF
    exactly when the body decodes and parses to a JSON object that has a
    key [html], whose value parses as a page, and a key [css], whose value
    can be iterated and whose every element parses as a stylesheet, the
    page, rendered with all of these stylesheets in their order, can be
    written, and the two headers of the response can be set (the file name
    holds no line break). *)
Theorem generate_json_body req r :
  headers req !! "Content-Type" = Some "application/json" →
  outcome (generate req) = inr r
  ↔ ∃ s members src h listed sheets css' d pdf,
      utf8_decode (data req) = inr s ∧ json_loads s = inr (JObj members) ∧
      assoc "html" members = Some src ∧ HTML_string src = inr h ∧
      assoc "css" members = Some listed ∧ py_iter listed = inr sheets ∧
      Forall2 (λ sheet c, CSS_string sheet = inr c) sheets css' ∧
      render h css' = inr d ∧ doc_write_pdf d = inr pdf ∧
      pdf_response (filename req) pdf = inr r.
Proof.
  intros Hct. rewrite (generate_json req r Hct). split.
  - intros (s & data' & src & h & listed & sheets & css' & d & pdf &
            Hs & Hj & Hsrc & Hh & Hl & Hrest).
    apply py_getitem_inr in Hsrc as (members & -> & Hsrc).
    apply py_getitem_inr in Hl as (members' & [= <-] & Hl).
    by exists s, members, src, h, listed, sheets, css', d, pdf.
  - intros (s & members & src & h & listed & sheets & css' & d & pdf &
            Hs & Hj & Hsrc & Hh & Hl & Hrest).
    destruct Hrest as (Hi & Hcss & Hd & Hw & Hr).
    exists s, (JObj members), src, h, listed, sheets, css', d, pdf.
    split_and!; try done; apply py_getitem_inr; by exists members.
Qed.


End Archive.

(** X13: [setup_logging] leaves [app.logger] with one handler, the stream
    handler with the format of the module, whatever handlers it had, and at
    level DEBUG.  The names of DEBUG, INFO, WARNING and ERROR come out
    wrapped in their colour sequence, around the name each had before, and
    the name of every other level is as before. *)
Theorem setup_logging_state st :
  logger_handlers (setup_logging st) = [{| formatter := Some log_format |}] ∧
  logger_level (setup_logging st) = 10 ∧
  (∀ l, getLevelName (setup_logging st) (levelno l)
        = esc +:+ "[1;" +:+ colour l +:+ "m" +:+ getLevelName st (levelno l)
          +:+ esc +:+ "[1;0m") ∧
  (∀ n, (∀ l, n ≠ levelno l) → getLevelName (setup_logging st) n = getLevelName st n).
Proof.
  split_and!; [done..| |].
  - intros l. unfold setup_logging. cbv zeta.
    match goal with
    | |- getLevelName {| levelToName := levelToName ?s; nameToLevel := _;
                         logger_handlers := _; logger_level := _ |} ?n = _ =>
        change (getLevelName s n = esc +:+ "[1;" +:+ colour l +:+ "m"
                  +:+ getLevelName st (levelno l) +:+ esc +:+ "[1;0m")
    end.
    rewrite !getLevelName_addLevelName. by destruct l.
  - intros n Hn. unfold setup_logging. cbv zeta.
    match goal with
    | |- getLevelName {| levelToName := levelToName ?s; nameToLevel := _;
                         logger_handlers := _; logger_level := _ |} ?n = _ =>
        change (getLevelName s n = getLevelName st n)
    end.
    rewrite !getLevelName_addLevelName.
    pose proof (Hn DEBUG). pose proof (Hn INFO).
    pose proof (Hn WARNING). pose proof (Hn ERROR).
    repeat case_decide; congruence.
Qed.

(** ** These theorems on concrete requests *)

Lemma pdf_view_headers_witness :
  status (pdf_answer "unnamed.pdf" "%PDF<p>a</p>|<p>b</p>") = 200 ∧
  resp_headers (pdf_answer "unnamed.pdf" "%PDF<p>a</p>|<p>b</p>") !! "Content-Type"
    = Some "application/pdf" ∧
  resp_headers (pdf_answer "unnamed.pdf" "%PDF<p>a</p>|<p>b</p>")
    !! "Content-Disposition" = Some "inline;filename=unnamed.pdf".
Proof.
  apply (pdf_view_headers (T:=Double.types) (L:=Double.lib) Double.environ Multiple
           (Double.post "/multiple" [] Double.two_pages)).
  - right. by left.
  - vm_compute; reflexivity.
Defined.

Lemma ok_line_marks_success_witness :
  ok_line Zip2pdf (Double.post "/zip2pdf" [] "PK:empty")
    ∉ trace (view (T:=Double.types) (L:=Double.lib) Double.environ Zip2pdf
               (Double.post "/zip2pdf" [] "PK:empty")).
Proof.
  intros Hin.
  destruct (proj1 (ok_line_marks_success (T:=Double.types) (L:=Double.lib)
                     Double.environ Zip2pdf (Double.post "/zip2pdf" [] "PK:empty")
                     (or_intror (or_intror eq_refl))) Hin) as [r Hr].
  vm_compute in Hr. discriminate Hr.
Defined.

Lemma generate_raw_html_witness :
  outcome (generate (T:=Double.types) (L:=Double.lib)
             (Double.post "/pdf" [("Content-Type", "application/json; charset=utf-8")]
                Double.empty_array))
    = inr (pdf_answer "unnamed.pdf" "%PDF[]") ∧
  EvCall OpJsonLoads
    ∉ trace (generate (T:=Double.types) (L:=Double.lib)
               (Double.post "/pdf" [("Content-Type", "application/json; charset=utf-8")]
                  Double.empty_array)).
Proof.
  destruct (generate_raw_html (T:=Double.types) (L:=Double.lib)
              (Double.post "/pdf" [("Content-Type", "application/json; charset=utf-8")]
                 Double.empty_array)
              "application/json; charset=utf-8"
              (pdf_answer "unnamed.pdf" "%PDF[]")
              ltac:(vm_compute; reflexivity) ltac:(discriminate))
    as (Hiff & Hjson & _).
  split; [|exact Hjson].
  apply Hiff.
  exists "[]", "[]", (Build_Document Double.types ["[]"] ()), "%PDF[]".
  split_and!; reflexivity.
Defined.

Lemma generate_json_body_witness :
  outcome (generate (T:=Double.types) (L:=Double.lib)
             (Double.post "/pdf" [("Content-Type", "application/json")] Double.styled))
    = inr (pdf_answer "unnamed.pdf" "%PDF<p>a</p>p{}").
Proof.
  apply (generate_json_body (T:=Double.types) (L:=Double.lib)
           (Double.post "/pdf" [("Content-Type", "application/json")] Double.styled)
           _ ltac:(vm_compute; reflexivity)).
  exists Double.styled, [("html", JStr "<p>a</p>"); ("css", JArr [JStr "p{}"])],
         (JStr "<p>a</p>"), "<p>a</p>", (JArr [JStr "p{}"]), [JStr "p{}"], ["p{}"],
         (Build_Document Double.types ["<p>a</p>p{}"] ()), "%PDF<p>a</p>p{}".
  split_and!; [reflexivity..| |reflexivity|reflexivity|reflexivity].
  repeat constructor.
Defined.

Lemma generate_json_keys_witness :
  outcome (generate (T:=Double.types) (L:=Probe.lib)
             (Double.post "/pdf" [("Content-Type", "application/json")] Probe.no_css))
    = inl (Uncaught (KeyError "css")) ∧
  outcome (generate (T:=Double.types) (L:=Probe.lib)
             (Double.post "/pdf" [("Content-Type", "application/json")] Probe.number))
    = inl (Uncaught TypeError).
Proof.
  split.
  - destruct (generate_json_keys (T:=Double.types) (L:=Probe.lib)
                (Double.post "/pdf" [("Content-Type", "application/json")] Probe.no_css)
                Probe.no_css (JObj [("html", JStr "<p>a</p>")])
                ltac:(vm_compute; reflexivity) eq_refl eq_refl)
      as (_ & _ & Hcss).
    apply (Hcss [("html", JStr "<p>a</p>")] (JStr "<p>a</p>") "<p>a</p>");
      reflexivity.
  - destruct (generate_json_keys (T:=Double.types) (L:=Probe.lib)
                (Double.post "/pdf" [("Content-Type", "application/json")] Probe.number)
                Probe.number (JNum "7")
                ltac:(vm_compute; reflexivity) eq_refl eq_refl)
      as (Hshape & _).
    apply Hshape. discriminate.
Defined.

Lemma multiple_not_iterable_witness :
  multiple (T:=Double.types) (L:=Probe.lib) (Double.post "/multiple" [] Probe.null)
  = ([EvLog INFO "POST  /multiple?filename=unnamed.pdf";
      EvCall OpDecode; EvCall OpJsonLoads],
     inl (Uncaught TypeError)).
Proof.
  apply (multiple_not_iterable (T:=Double.types) (L:=Probe.lib)
           (Double.post "/multiple" [] Probe.null) Probe.null JNull).
  - reflexivity.
  - reflexivity.
  - by left.
Defined.

Lemma multiple_first_failure_witness :
  outcome (multiple (T:=Double.types) (L:=Probe.lib)
             (Double.post "/multiple" [] Probe.mixed))
    = inl (Uncaught TypeError) ∧
  trace (multiple (T:=Double.types) (L:=Probe.lib)
           (Double.post "/multiple" [] Probe.mixed))
    = [EvLog INFO "POST  /multiple?filename=unnamed.pdf";
       EvCall OpDecode; EvCall OpJsonLoads;
       EvCall OpHTML; EvCall OpRender; EvCall OpHTML].
Proof.
  destruct (multiple_first_failure (T:=Double.types) (L:=Probe.lib)
              (Double.post "/multiple" [] Probe.mixed) Probe.mixed
              (JArr [JStr "<p>a</p>"; JNum "7"; JStr "<p>b</p>"])
              [JStr "<p>a</p>"] (JNum "7") [JStr "<p>b</p>"]
              [Build_Document Double.types ["<p>a</p>"] ()] TypeError
              eq_refl eq_refl eq_refl) as (Ho & Ht & _).
  - repeat constructor. exists "<p>a</p>". split; reflexivity.
  - reflexivity.
  - split; [exact Ho|exact Ht].
Defined.

Lemma home_ok_witness :
  ∃ r, wsgi_app (T:=Double.types) (L:=Double.lib) Double.environ
         {| method := "GET"; path := "/"; args := ∅;
            headers := {[ "X_API_KEY" := "guess" ]}; data := "" |}
       = Some ([], inr r) ∧
       status r = 200 ∧ body r = home_page ∧
       resp_headers r !! "Content-Type" = Some "text/html; charset=utf-8".
Proof. apply home_ok; reflexivity. Defined.


(** ** File names with a line break *)

Section LineBreaks.
Context {T : LibTypes} {L : Lib}.
Variable environ : gmap string string.

(** X14: a [filename] argument that holds a line feed or a carriage return
    never gets a response from /pdf, /multiple or /zip2pdf: whatever the
    body and the libraries do, the assignment of [Content-Disposition]
    raises, so that the status is 400, 401 or 500 and the line break never
    reaches a header. *)
Theorem line_break_in_filename ep req :
  pdf_endpoint ep →
  has_newline (filename req) = true →
  (∀ r, outcome (view environ ep req) ≠ inr r) ∧
  final_status (outcome (view environ ep req)) ∈ [400; 401; 500].
Proof.
  intros Hep Hnl.
  assert (∀ r, outcome (view environ ep req) ≠ inr r) as Hno.
  { intros r Hr. destruct (pdf_view_returns environ _ _ _ Hep Hr) as [pdf Hpdf].
    apply pdf_response_inr in Hpdf as [Hok _]. congruence. }
  split; [done|].
  destruct (outcome (view environ ep req)) as [[code|e]|r] eqn:Ho; cbn [final_status].
  - apply view_abort_codes in Ho as [-> | ->]; set_solver.
  - set_solver.
  - by destruct (Hno r).
Qed.

End LineBreaks.

Lemma line_break_in_filename_witness :
  final_status
    (outcome (view (T:=Double.types) (L:=Double.lib) Double.environ Multiple
                {| method := "POST"; path := "/multiple";
                   args := {[ "filename" := String "a" (String (ascii_of_nat 10) "b") ]};
                   headers := ∅; data := Double.two_pages |}))
    ∈ [400; 401; 500].
Proof.
  apply (line_break_in_filename (T:=Double.types) (L:=Double.lib) Double.environ
           Multiple).
  - right. by left.
  - vm_compute; reflexivity.
Defined.
